(** * Datacolector-modem: the MQTT event collector of [main.go]

    A shallow embedding of the message callback of [main.go], of its
    thirteen event handlers and of the POWER_PLN correlation built on the
    process-wide [eventState] map, followed by the properties of the
    correlation that the design document states.

    Conventions.
    - Go's [string] is a byte string: [string] of the Standard Library.
    - Go's [int64] is [Z]; the one place where the program multiplies
      ([timestamp *= 1000]) has its wrap-around written out ([wrap64]).
    - [eventState] ([sync.Map]) is a [gmap string bool]: [Store] is insert,
      [Load] is lookup, [Delete] is delete.
    - The database and the broker are write-only collaborators: every
      [db.Exec] and every [mqttClient.Publish] is appended to a trace
      ([sink]).  Their failures are only logged by the program and do not
      alter its control flow; log lines are not part of the model.
    - The Go standard library functions the program calls on payloads
      ([json.Unmarshal], [strconv.ParseFloat], the conversion [int64(f)],
      [json.Marshal], [http.Post]) are fields of an environment [Env];
      every general theorem holds for every environment.
    - A run-time panic is the outcome [Panic].
    - Deliveries are handled one at a time, in the order of arrival: the
      callback of a delivery returns before the next one is called. *)

From Stdlib Require Import ZArith Ascii String List Lia.
From stdpp Require Import gmap strings list pretty.

Set Warnings "-register-all".

Local Open Scope string_scope.
Local Open Scope list_scope.
Local Open Scope Z_scope.

(** ** Values produced by [encoding/json] *)

(** What [json.Unmarshal] stores in an [interface{}]: [nil], [bool],
    [float64], [string], [[]interface{}] or [map[string]interface{}].
    [F] is the type of [float64] values. *)
Inductive JSON (F : Type) : Type :=
| JNull
| JBool (b : bool)
| JNumber (f : F)
| JString (s : string)
| JArray (l : list (JSON F))
| JObject (m : list (string * JSON F)).

Arguments JNull {F}.
Arguments JBool {F} b.
Arguments JNumber {F} f.
Arguments JString {F} s.
Arguments JArray {F} l.
Arguments JObject {F} m.

(** The [Value interface{}] field of [EventMessage]. *)
Inductive value (F : Type) : Type :=
| VNil
| VInt (z : Z)
| VIface (j : JSON F)
| VMap (m : gmap string (JSON F)).

Arguments VNil {F}.
Arguments VInt {F} z.
Arguments VIface {F} j.
Arguments VMap {F} m.

(** [v == nil] for an interface value; JSON [null] decodes to [nil]. *)
Definition value_is_nil {F} (v : value F) : bool :=
  match v with
  | VNil => true
  | VIface JNull => true
  | _ => false
  end.

(** ** Records *)

Record EventMessage (F : Type) : Type := mkEventMessage {
  EventName : string;
  Tag : string;
  Value : value F;
  Status : bool;
  Msg : string;
  Time : Z;
  Sumber : string
}.

Arguments mkEventMessage {F}.
Arguments EventName {F}.
Arguments Tag {F}.
Arguments Value {F}.
Arguments Status {F}.
Arguments Msg {F}.
Arguments Time {F}.
Arguments Sumber {F}.

(** The map [datapoints] that [sendDataPoint] publishes on DATAPOINTS. *)
Record datapoint (F : Type) : Type := mkDatapoint {
  dp_event : string;
  dp_tag : string;
  dp_value : value F;
  dp_time : Z;
  dp_id_modem : string
}.

Arguments mkDatapoint {F}.
Arguments dp_event {F}.
Arguments dp_tag {F}.
Arguments dp_value {F}.
Arguments dp_time {F}.
Arguments dp_id_modem {F}.

(** One call on an external collaborator. *)
Inductive sink_call (F : Type) : Type :=
| DbInsert (sender_id message : string) (timestamp : Z)
| DbInsertGeo (sender_id message : string)
| Publish (d : datapoint F).

Arguments DbInsert {F}.
Arguments DbInsertGeo {F}.
Arguments Publish {F}.

(** The state the callback works on. *)
Record world (F : Type) : Type := mkWorld {
  eventState : gmap string bool;
  sink : list (sink_call F)
}.

Arguments mkWorld {F}.
Arguments eventState {F}.
Arguments sink {F}.

Inductive outcome (F : Type) : Type :=
| Done (w : world F)
| Panic.

Arguments Done {F}.
Arguments Panic {F}.

(** ** The environment *)

Record http_response (F : Type) : Type := mkResponse {
  StatusCode : nat;
  (** the result of [json.NewDecoder(resp.Body).Decode]; [None] on error *)
  Body : option (gmap string (JSON F))
}.

Arguments mkResponse {F}.
Arguments StatusCode {F}.
Arguments Body {F}.

Record CellTower : Type := mkCellTower {
  cellId : Z;
  locationAreaCode : Z;
  mobileCountryCode : string;
  mobileNetworkCode : string
}.

Record Env : Type := mkEnv {
  float64 : Type;
  (** [json.Unmarshal] into a [map[string]interface{}]; [None] on error *)
  json_Unmarshal : string -> option (gmap string (JSON float64));
  (** [strconv.ParseFloat(s, 64)]; [None] on error *)
  ParseFloat : string -> option float64;
  (** the conversion [int64(f)]: truncation toward zero *)
  int64_of_float64 : float64 -> Z;
  (** [json.Marshal] of the request [{"cellTowers": ...}] *)
  json_Marshal_cellTowers : list CellTower -> string;
  (** [http.Post(url, "application/json", body)]; [None] on error *)
  http_Post : string -> string -> option (http_response float64);
  (** the global [apiKey] *)
  apiKey : string
}.

(** ** Integers and characters *)

(** The value of an [int64] after an arithmetic overflow. *)
Definition wrap64 (z : Z) : Z := (z + 2 ^ 63) mod 2 ^ 64 - 2 ^ 63.

Definition MaxInt64 : Z := 2 ^ 63 - 1.

Definition is_digit (c : ascii) : bool :=
  let n := N_of_ascii c in ((48 <=? n) && (n <=? 57))%N.

(** The class [A-Fa-f0-9]. *)
Definition is_hex (c : ascii) : bool :=
  let n := N_of_ascii c in
  (((48 <=? n) && (n <=? 57)) || ((65 <=? n) && (n <=? 70))
   || ((97 <=? n) && (n <=? 102)))%N.

Definition hex_value (c : ascii) : Z :=
  let n := Z.of_N (N_of_ascii c) in
  if n <=? 57 then n - 48 else if n <=? 70 then n - 55 else n - 87.

(** The longest prefix of characters of a class, and what follows it. *)
Fixpoint span (p : ascii -> bool) (s : string) : string * string :=
  match s with
  | EmptyString => (EmptyString, EmptyString)
  | String c r =>
      if p c then let '(a, b) := span p r in (String c a, b)
      else (EmptyString, s)
  end.

Fixpoint number_of (base : Z) (digit : ascii -> Z) (acc : Z) (s : string) : Z :=
  match s with
  | EmptyString => acc
  | String c r => number_of base digit (acc * base + digit c) r
  end.

(** [strconv.Atoi] on a non-empty string of decimal digits: the only
    possible error is a value out of the range of [int]. *)
Definition Atoi_digits (s : string) : option Z :=
  let v := number_of 10 (fun c => Z.of_N (N_of_ascii c) - 48) 0 s in
  if v <=? MaxInt64 then Some v else None.

(** [strconv.ParseInt(s, 16, 64)] on a non-empty string of hexadecimal
    digits. *)
Definition ParseInt_hex (s : string) : option Z :=
  let v := number_of 16 hex_value 0 s in
  if v <=? MaxInt64 then Some v else None.

(** [strings.Split(s, "/")]. *)
Fixpoint Split_slash (s : string) : list string :=
  match s with
  | EmptyString => [EmptyString]
  | String c r =>
      if Ascii.eqb c "/" then EmptyString :: Split_slash r
      else match Split_slash r with
           | h :: t => String c h :: t
           | [] => [String c EmptyString]
           end
  end.

(** ** The program *)

Section Program.

Variable E : Env.

Local Abbreviation F := (float64 E).
Local Abbreviation msgData_t := (gmap string (JSON (float64 E))).

Definition zeroEventMessage : EventMessage F :=
  mkEventMessage "" "" VNil false "" 0 "".

(** [m != (EventMessage{})].  Go compares the fields in source order and
    stops at the first pair that differs, an interface against [nil]
    never panics. *)
Definition isZeroEventMessage (m : EventMessage F) : bool :=
  String.eqb (EventName m) "" && String.eqb (Tag m) ""
  && value_is_nil (Value m) && negb (Status m)
  && String.eqb (Msg m) "" && (Time m =? 0) && String.eqb (Sumber m) "".

Definition call (c : sink_call F) (w : world F) : world F :=
  mkWorld (eventState w) (sink w ++ [c]).

Definition Store (key : string) (v : bool) (w : world F) : world F :=
  mkWorld (<[key := v]> (eventState w)) (sink w).

Definition Load (key : string) (w : world F) : option bool :=
  eventState w !! key.

Definition Delete (key : string) (w : world F) : world F :=
  mkWorld (delete key (eventState w)) (sink w).

Definition processAndSaveData (data : EventMessage F) (w : world F) : world F :=
  call (DbInsert (Sumber data) (Msg data) (Time data)) w.

Definition sendDataPoint (message : EventMessage F) (w : world F) : world F :=
  call (Publish (mkDatapoint (EventName message) (Tag message) (Value message)
                             (Time message) (Sumber message))) w.

(** The block every handler but the geolocation one repeats after
    [json.Unmarshal] (lines 273-288 in [handlePowerBackupModeEvent]): read ["timestamp"] as a string, parse it, convert it
    to [int64], and scale a 10-character timestamp to milliseconds. *)
Definition scaleTimestamp (timestampStr : string) (timestampFloat : F) : Z :=
  let timestamp := int64_of_float64 E timestampFloat in
  if (String.length timestampStr =? 10)%nat then wrap64 (timestamp * 1000)
  else timestamp.

Definition parseTimestamp (msgData : msgData_t) : option Z :=
  match msgData !! "timestamp" with
  | Some (JString timestampStr) =>
      match ParseFloat E timestampStr with
      | Some timestampFloat => Some (scaleTimestamp timestampStr timestampFloat)
      | None => None
      end
  | _ => None
  end.

(** Handel Clear Power Pln ([main.go], lines 528-603) *)
Definition handleClearPowerPlnEvent (senderID message event : string)
    (w : world F) : world F :=
  match json_Unmarshal E message with
  | None => w
  | Some msgData =>
  match parseTimestamp msgData with
  | None => w
  | Some timestamp =>
    let statusClearPowerPlnMessage :=
      mkEventMessage "POWER_PLN" ("power_pln_" +:+ senderID) (VInt 0) true
                     message timestamp senderID in
    let stored :=
      if String.eqb event "POWER_RESTORE_MODE"
      then Some (Store (senderID +:+ "_POWER_RESTORE_MODE") true w)
      else if String.eqb event "CLEAR_ALARM_METER_DEVICE"
      then Some (Store (senderID +:+ "_CLEAR_ALARM_METER_DEVICE") true w)
      else None in
    match stored with
    | None => w
    | Some w1 =>
      let clearAlarmMeterDevice :=
        match Load (senderID +:+ "_CLEAR_ALARM_METER_DEVICE") w1 with
        | Some b => b
        | None => false
        end in
      let powerRestoreMode :=
        match Load (senderID +:+ "_POWER_RESTORE_MODE") w1 with
        | Some b => b
        | None => false
        end in
      if clearAlarmMeterDevice || powerRestoreMode then
        let w2 := processAndSaveData statusClearPowerPlnMessage w1 in
        let w3 := sendDataPoint statusClearPowerPlnMessage w2 in
        let w4 := if clearAlarmMeterDevice
                  then Delete (senderID +:+ "_CLEAR_ALARM_METER_DEVICE") w3
                  else w3 in
        if powerRestoreMode
        then Delete (senderID +:+ "_POWER_RESTORE_MODE") w4
        else w4
      else w1
    end
  end
  end.

(** handlePowerPln processes POWER_BACKUP_MODE events and checks for
    CONNECTION_MISSING from ALARM_METER_DEVICE events (lines 463-525) *)
Definition handlePowerPln (senderID message event : string)
    (w : world F) : world F :=
  match json_Unmarshal E message with
  | None => w
  | Some msgData =>
  match parseTimestamp msgData with
  | None => w
  | Some timestamp =>
    let statusPowerPlnMessage :=
      mkEventMessage "POWER_PLN" ("power_pln_" +:+ senderID) (VInt 1) true
                     message timestamp senderID in
    if String.eqb event "POWER_BACKUP_MODE"
       || String.eqb event "ALARM_METER_DEVICE" then
      let w1 :=
        if String.eqb event "POWER_BACKUP_MODE"
        then Store (senderID +:+ "_POWER_BACKUP_MODE") true w
        else if String.eqb event "ALARM_METER_DEVICE"
        then Store (senderID +:+ "_ALARM_METER_DEVICE") true w
        else w in
      let connectionMissing :=
        match Load (senderID +:+ "_ALARM_METER_DEVICE") w1 with
        | Some b => b
        | None => false
        end in
      let powerBackupMode :=
        match Load (senderID +:+ "_POWER_BACKUP_MODE") w1 with
        | Some b => b
        | None => false
        end in
      if connectionMissing && powerBackupMode then
        sendDataPoint statusPowerPlnMessage
          (processAndSaveData statusPowerPlnMessage w1)
      else w1
    else if String.eqb event "POWER_RESTORE_MODE"
            || String.eqb event "CLEAR_ALARM_METER_DEVICE" then
      handleClearPowerPlnEvent senderID message event w
    else w
  end
  end.

(** Combined Condition Check Function Power PLN (lines 443-460) *)
Definition checkCombinedConditions (senderID message event : string)
    (w : world F) : world F :=
  match Load (senderID +:+ "_ALARM_METER_DEVICE") w,
        Load (senderID +:+ "_POWER_BACKUP_MODE") w with
  | Some connectionMissing, Some powerBackupMode =>
      if connectionMissing && powerBackupMode
      then handlePowerPln senderID message event w
      else w
  | _, _ => w
  end.

(** The shape shared by the handlers that emit one record: unmarshal the
    payload, decode the timestamp, build the record with [mk], test it
    against the zero value, save it and send it, then run [after]. *)
Definition emitWith (message : string)
    (mk : Z -> EventMessage F) (after : world F -> world F)
    (w : world F) : world F :=
  match json_Unmarshal E message with
  | None => w
  | Some msgData =>
  match parseTimestamp msgData with
  | None => w
  | Some timestamp =>
    let m := mk timestamp in
    if negb (isZeroEventMessage m)
    then after (sendDataPoint m (processAndSaveData m w))
    else w
  end
  end.

(** Handel Backup Mode (lines 266-308) *)
Definition handlePowerBackupModeEvent (senderID message event : string)
    : world F -> world F :=
  emitWith message
    (fun timestamp =>
       mkEventMessage event ("power_modem_" +:+ senderID) (VInt 1) true
                      message timestamp senderID)
    (fun w =>
       checkCombinedConditions senderID message event
         (Store (senderID +:+ "_POWER_BACKUP_MODE") true w)).

(** Handel Power Restore (lines 311-354) *)
Definition handlePowerRestoreModeEvent (senderID message event : string)
    : world F -> world F :=
  emitWith message
    (fun timestamp =>
       mkEventMessage event ("power_modem_" +:+ senderID) (VInt 0) true
                      message timestamp senderID)
    (fun w =>
       checkCombinedConditions senderID message event
         (Store (senderID +:+ "_POWER_RESTORE_MODE") true w)).

(** Handel Alarm Connection Missing (lines 824-866) *)
Definition handleAlarmMeterDeviceEvent (senderID message event : string)
    : world F -> world F :=
  emitWith message
    (fun timestamp =>
       mkEventMessage event ("alarm_connection_missing_" +:+ senderID)
                      (VInt 1) true message timestamp senderID)
    (fun w =>
       checkCombinedConditions senderID message event
         (Store (senderID +:+ "_ALARM_METER_DEVICE") true w)).

(** Handel Clear Alarm Connection Missing (lines 869-911).  Line 906
    stores the key of ALARM_METER_DEVICE. *)
Definition handleClearAlarmMeterDeviceEvent (senderID message event : string)
    : world F -> world F :=
  emitWith message
    (fun timestamp =>
       mkEventMessage event ("alarm_connection_missing_" +:+ senderID)
                      (VInt 0) true message timestamp senderID)
    (fun w =>
       checkCombinedConditions senderID message event
         (Store (senderID +:+ "_ALARM_METER_DEVICE") true w)).

(** The handlers that only forward their event: they differ in the prefix
    of the tag and in the value. *)
Definition forwardEvent (tagPrefix : string) (v : Z)
    (senderID message event : string) : world F -> world F :=
  emitWith message
    (fun timestamp =>
       mkEventMessage event (tagPrefix +:+ senderID) (VInt v) true
                      message timestamp senderID)
    (fun w => w).

(** Handel Status Modem On (lines 357-397) *)
Definition handleStatusModemOn := forwardEvent "status_modem_" 1.

(** Handel Status Modem Off (lines 400-440) *)
Definition handleStatusModemOff := forwardEvent "status_modem_" 0.

(** Handel Alarm Temper (lines 606-647) *)
Definition handleAlarmMeterDeviceTemperEvent :=
  forwardEvent "alarm_meter_temper_" 1.

(** Handel Clear Alarm Temper (lines 650-691) *)
Definition handleClearAlarmMeterDeviceTemperEvent :=
  forwardEvent "alarm_meter_temper_" 0.

(** Handel Alarm Temperature (lines 696-736) *)
Definition handleAlarmTemperatureEvent := forwardEvent "alarm_temperature_" 1.

(** Handel Clear Alarm Temperature (lines 739-779) *)
Definition handleClearAlarmTemperatureEvent :=
  forwardEvent "alarm_temperature_" 0.

(** Handel Temperature (lines 217-263): the ["message"] field is looked
    up before the timestamp, and forwarded as it is. *)
Definition handleTemperatureEvent (senderID message event : string)
    (w : world F) : world F :=
  match json_Unmarshal E message with
  | None => w
  | Some msgData =>
  match msgData !! "message" with
  | None => w
  | Some msg =>
  match parseTimestamp msgData with
  | None => w
  | Some timestamp =>
    let temperatureMessage :=
      mkEventMessage event ("temperature_" +:+ senderID) (VIface msg) true
                     message timestamp senderID in
    if negb (isZeroEventMessage temperatureMessage)
    then sendDataPoint temperatureMessage
           (processAndSaveData temperatureMessage w)
    else w
  end
  end
  end.

(** The first match of the expression [\d+], if any. *)
Fixpoint first_digits (s : string) : option string :=
  match s with
  | EmptyString => None
  | String c r => if is_digit c then Some (fst (span is_digit s))
                  else first_digits r
  end.

Definition findNumbersInSentences (s : string) : Z :=
  match first_digits s with
  | Some m => match Atoi_digits m with
              | Some value => value
              | None => 0
              end
  | None => 0
  end.

(** Handel Set Temperature (lines 782-821).  [msgData["message"].(string)]
    is a type assertion without the comma-ok form. *)
Definition handleSetTemperatureEvents (senderID message : string)
    (w : world F) : outcome F :=
  match json_Unmarshal E message with
  | None => Done w
  | Some msgData =>
  match parseTimestamp msgData with
  | None => Done w
  | Some timestamp =>
  match msgData !! "message" with
  | Some (JString text) =>
    let setTemperatureMessage :=
      mkEventMessage "" (senderID +:+ "_set_temperature")
                     (VInt (findNumbersInSentences text)) true
                     message timestamp senderID in
    if negb (isZeroEventMessage setTemperatureMessage)
    then Done (sendDataPoint setTemperatureMessage
                 (processAndSaveData setTemperatureMessage w))
    else Done w
  | _ => Panic
  end
  end
  end.

(** One match of [\[(\d+),(\d+),([A-Fa-f0-9]+),([A-Fa-f0-9]+)\]] at the head
    of [s], with what follows it.  Every repetition is followed by a
    character outside its class, so the longest run is the only choice. *)
Definition match_tower (s : string)
    : option ((string * string * string * string) * string) :=
  match s with
  | String "[" r =>
    match span is_digit r with
    | (String c1 m1, String "," r2) =>
      match span is_digit r2 with
      | (String c2 m2, String "," r4) =>
        match span is_hex r4 with
        | (String c3 m3, String "," r6) =>
          match span is_hex r6 with
          | (String c4 m4, String "]" r8) =>
              Some ((String c1 m1, String c2 m2, String c3 m3, String c4 m4), r8)
          | _ => None
          end
        | _ => None
        end
      | _ => None
      end
    | _ => None
    end
  | _ => None
  end.

(** [re.FindAllStringSubmatch(s, -1)]: leftmost matches, not overlapping. *)
Fixpoint find_towers (fuel : nat) (s : string)
    : list (string * string * string * string) :=
  match fuel with
  | O => []
  | S fuel' =>
    match match_tower s with
    | Some (m, rest) => m :: find_towers fuel' rest
    | None => match s with
              | EmptyString => []
              | String _ r => find_towers fuel' r
              end
    end
  end.

Definition FindAllStringSubmatch (s : string) :=
  find_towers (S (String.length s)) s.

(** The loop over the matches; a match whose hexadecimal fields do not fit
    an [int64] is skipped. *)
Fixpoint parseCellTowers (matches : list (string * string * string * string))
    : list CellTower :=
  match matches with
  | [] => []
  | (mcc, mnc, lacHex, cellIDHex) :: rest =>
    match ParseInt_hex lacHex with
    | None => parseCellTowers rest
    | Some lac =>
      match ParseInt_hex cellIDHex with
      | None => parseCellTowers rest
      | Some cellID => mkCellTower cellID lac mcc mnc :: parseCellTowers rest
      end
    end
  end.

(** Handel geolocation (lines 82-214) *)
Definition handleGeolocationEvent (messageStr senderID event : string)
    (w : world F) : world F :=
  match json_Unmarshal E messageStr with
  | None => w
  | Some messageData =>
  match messageData !! "message" with
  | Some (JString geolocationMessage) =>
    let matches := FindAllStringSubmatch geolocationMessage in
    if (length matches =? 0)%nat then w else
    let cellTowers := parseCellTowers matches in
    if (length cellTowers =? 0)%nat then w else
    let url := "https://www.googleapis.com/geolocation/v1/geolocate?key="
               +:+ apiKey E in
    let dataBytes := json_Marshal_cellTowers E cellTowers in
    match http_Post E url dataBytes with
    | None => w
    | Some resp =>
      if (StatusCode resp =? 200)%nat then
        match Body resp with
        | None => w
        | Some locationData =>
          let geolocationMessage :=
            mkEventMessage event ("geolocation_" +:+ senderID)
                           (VMap locationData) true "" 0 senderID in
          call (DbInsertGeo senderID dataBytes)
               (sendDataPoint geolocationMessage w)
        end
      else w
    end
  | _ => w
  end
  end.

Definition getTimestamp (msgData : msgData_t) : option (Z + string) :=
  match msgData !! "timestamp" with
  | Some (JNumber timestamp) => Some (inl (int64_of_float64 E timestamp))
  | Some (JString timestamp) => Some (inr timestamp)
  | _ => None
  end.

(** The [switch event] of the subscription callback (lines 1028-1057). *)
Definition dispatch (event senderID message : string) (w : world F)
    : outcome F :=
  if String.eqb event "TEMPERATURE" then
    Done (handleTemperatureEvent senderID message event w)
  else if String.eqb event "ALARM_METER_TEMPER" then
    Done (handleAlarmMeterDeviceTemperEvent senderID message event w)
  else if String.eqb event "CLEAR_ALARM_METER_TEMPER" then
    Done (handleClearAlarmMeterDeviceTemperEvent senderID message event w)
  else if String.eqb event "POWER_BACKUP_MODE" then
    Done (handlePowerBackupModeEvent senderID message event w)
  else if String.eqb event "POWER_RESTORE_MODE" then
    Done (handlePowerRestoreModeEvent senderID message event w)
  else if String.eqb event "STATUS_MODEM_ON" then
    Done (handleStatusModemOn senderID message event w)
  else if String.eqb event "STATUS_MODEM_OFF" then
    Done (handleStatusModemOff senderID message event w)
  else if String.eqb event "ALARM_TEMPERATURE" then
    Done (handleAlarmTemperatureEvent senderID message event w)
  else if String.eqb event "CLEAR_ALARM_TEMPERATURE" then
    Done (handleClearAlarmTemperatureEvent senderID message event w)
  else if String.eqb event "SET_TEMPERATURE" then
    handleSetTemperatureEvents senderID message w
  else if String.eqb event "ALARM_METER_DEVICE" then
    Done (handleAlarmMeterDeviceEvent senderID message event w)
  else if String.eqb event "CLEAR_ALARM_METER_DEVICE" then
    Done (handleClearAlarmMeterDeviceEvent senderID message event w)
  else if String.eqb event "GEOLOCATION" then
    Done (handleGeolocationEvent message senderID event w)
  else Done w.

(** The callback given to [mqttClient.Subscribe] (lines 1002-1059). *)
Definition onMessage (topic payload : string) (w : world F) : outcome F :=
  match json_Unmarshal E payload with
  | None => Done w
  | Some msgData =>
  match msgData !! "event" with
  | Some (JString event) =>
    match Split_slash topic !! 2%nat with
    | None => Panic
    | Some senderID =>
      match getTimestamp msgData with
      | None => Done w
      | Some _ => dispatch event senderID payload w
      end
    end
  | _ => Done w
  end
  end.

(** A sequence of deliveries, in the order the callback handles them. *)
Fixpoint run (events : list (string * string * string)) (w : world F)
    : outcome F :=
  match events with
  | [] => Done w
  | (event, senderID, message) :: rest =>
    match dispatch event senderID message w with
    | Done w' => run rest w'
    | Panic => Panic
    end
  end.

End Program.

(** ** A sample environment

    Used to run the program on sample deliveries.  The sample payloads are
    flat JSON objects whose fields are strings, written without white space
    and without escapes: on these texts [sample_Unmarshal] is what
    [json.Unmarshal] returns.  It returns [None] on every other text, which
    is what [json.Unmarshal] does on a text that is not JSON.  A sample
    timestamp is a string of at most fifteen decimal digits, which
    [strconv.ParseFloat] parses exactly; the sample [float64] values are
    those integers, and [sample_ParseFloat] returns [None] on every other
    string.  The geolocation service answers 200. *)

Module Sample.

Definition dq : ascii := ascii_of_nat 34.
Definition backslash : ascii := ascii_of_nat 92.

(** A character that may stand for itself inside a JSON string. *)
Definition plain (c : ascii) : bool :=
  let n := N_of_ascii c in
  ((32 <=? n) && (n <=? 126))%N && negb (Ascii.eqb c dq)
  && negb (Ascii.eqb c backslash).

(** The text after an opening quote, up to the closing one. *)
Fixpoint quoted (s : string) : option (string * string) :=
  match s with
  | EmptyString => None
  | String c r =>
      if Ascii.eqb c dq then Some (EmptyString, r)
      else if plain c then
        match quoted r with
        | Some (a, b) => Some (String c a, b)
        | None => None
        end
      else None
  end.

Fixpoint members (fuel : nat) (s : string) (acc : gmap string (JSON Z))
    : option (gmap string (JSON Z)) :=
  match fuel with
  | O => None
  | S fuel' =>
    match s with
    | String q r =>
      if Ascii.eqb q dq then
        match quoted r with
        | Some (key, String ":" (String q' r')) =>
          if Ascii.eqb q' dq then
            match quoted r' with
            | Some (val, String "," r'') =>
                members fuel' r'' (<[key := JString val]> acc)
            | Some (val, String "}" EmptyString) =>
                Some (<[key := JString val]> acc)
            | _ => None
            end
          else None
        | _ => None
        end
      else None
    | EmptyString => None
    end
  end.

Definition sample_Unmarshal (s : string) : option (gmap string (JSON Z)) :=
  match s with
  | String "{" (String "}" EmptyString) => Some ∅
  | String "{" r => members (String.length r) r ∅
  | _ => None
  end.

Fixpoint all_digits (s : string) : bool :=
  match s with
  | EmptyString => true
  | String c r => is_digit c && all_digits r
  end.

Definition sample_ParseFloat (s : string) : option Z :=
  if negb (String.eqb s "") && all_digits s && (String.length s <=? 15)%nat
  then Some (number_of 10 (fun c => Z.of_N (N_of_ascii c) - 48) 0 s)
  else None.

Definition field (k v : string) : string :=
  String dq k +:+ String dq ":" +:+ String dq v +:+ String dq "".

Fixpoint fields (l : list (string * string)) : string :=
  match l with
  | [] => ""
  | [(k, v)] => field k v
  | (k, v) :: rest => field k v +:+ "," +:+ fields rest
  end.

(** The text of a flat JSON object. *)
Definition object (l : list (string * string)) : string :=
  "{" +:+ fields l +:+ "}".

Definition tower_text (t : CellTower) : string :=
  "{" +:+ String dq "cellId" +:+ String dq ":" +:+ pretty (cellId t)
  +:+ "," +:+ String dq "locationAreaCode" +:+ String dq ":"
  +:+ pretty (locationAreaCode t)
  +:+ "," +:+ field "mobileCountryCode" (mobileCountryCode t)
  +:+ "," +:+ field "mobileNetworkCode" (mobileNetworkCode t) +:+ "}".

Fixpoint towers_text (l : list CellTower) : string :=
  match l with
  | [] => ""
  | [t] => tower_text t
  | t :: rest => tower_text t +:+ "," +:+ towers_text rest
  end.

Definition sample_Marshal (l : list CellTower) : string :=
  "{" +:+ String dq "cellTowers" +:+ String dq ":[" +:+ towers_text l +:+ "]}".

(** The service answers 200 with the body [{"accuracy": 1200}]. *)
Definition sample_Post (url body : string) : option (http_response Z) :=
  Some (mkResponse 200 (Some {[ "accuracy" := JNumber 1200 ]})).

Definition env : Env :=
  mkEnv Z sample_Unmarshal sample_ParseFloat (fun f => f)
        sample_Marshal sample_Post "key".

Definition empty : world Z := mkWorld ∅ [].

(** A well-formed payload of ten-digit timestamp. *)
Definition payload (event : string) : string :=
  object [("event", event); ("timestamp", "1700000000")].

End Sample.

(** ** A sample environment with numbers

    As [Sample], for payloads whose fields are strings or unsigned integers
    written in decimal without a leading zero, of at most fifteen digits:
    [encoding/json] decodes such a number to the [float64] of that value. *)

Module SampleNumbers.

Definition number (ds : string) : option Z :=
  match ds with
  | EmptyString => None
  | String c r =>
      if (negb (Ascii.eqb c "0") || String.eqb r "")
         && (String.length ds <=? 15)%nat
      then Some (number_of 10 (fun x => Z.of_N (N_of_ascii x) - 48) 0 ds)
      else None
  end.

(** One field value at the head of a text, and what follows it. *)
Definition field_value (s : string) : option (JSON Z * string) :=
  match s with
  | String q r =>
      if Ascii.eqb q Sample.dq then
        match Sample.quoted r with
        | Some (val, rest) => Some (JString val, rest)
        | None => None
        end
      else
        let '(ds, rest) := span is_digit s in
        match number ds with
        | Some v => Some (JNumber v, rest)
        | None => None
        end
  | EmptyString => None
  end.

Fixpoint members (fuel : nat) (s : string) (acc : gmap string (JSON Z))
    : option (gmap string (JSON Z)) :=
  match fuel with
  | O => None
  | S fuel' =>
    match s with
    | String q r =>
      if Ascii.eqb q Sample.dq then
        match Sample.quoted r with
        | Some (key, String ":" r') =>
          match field_value r' with
          | Some (v, String "," r'') => members fuel' r'' (<[key := v]> acc)
          | Some (v, String "}" EmptyString) => Some (<[key := v]> acc)
          | _ => None
          end
        | _ => None
        end
      else None
    | EmptyString => None
    end
  end.

Definition sample_Unmarshal (s : string) : option (gmap string (JSON Z)) :=
  match s with
  | String "{" (String "}" EmptyString) => Some ∅
  | String "{" r => members (String.length r) r ∅
  | _ => None
  end.

Definition env : Env :=
  mkEnv Z sample_Unmarshal Sample.sample_ParseFloat (fun f => f)
        Sample.sample_Marshal Sample.sample_Post "key".

(** A payload whose timestamp is a JSON number. *)
Definition payload (event : string) : string :=
  "{" +:+ Sample.field "event" event +:+ ","
  +:+ String Sample.dq "timestamp" +:+ String Sample.dq ":1700000000}".

End SampleNumbers.

(** ** Notions used in the statements *)

(** *** Observations on traces *)

(** A POWER_PLN datapoint of a modem, of any value. *)
Definition is_power_pln_of {F} (senderID : string) (c : sink_call F) : bool :=
  match c with
  | Publish d =>
      String.eqb (dp_event d) "POWER_PLN" && String.eqb (dp_id_modem d) senderID
  | _ => false
  end.

(** A POWER_PLN datapoint of a modem, of value [v]. *)
Definition is_power_pln {F} (v : Z) (senderID : string) (c : sink_call F)
    : bool :=
  is_power_pln_of senderID c
  && match c with
     | Publish d => match dp_value d with VInt z => z =? v | _ => false end
     | _ => false
     end.

Definition power_pln_count {F} (v : Z) (senderID : string)
    (trace : list (sink_call F)) : nat :=
  length (List.filter (is_power_pln v senderID) trace).

Definition power_pln_total {F} (senderID : string)
    (trace : list (sink_call F)) : nat :=
  length (List.filter (is_power_pln_of senderID) trace).

(** What was appended to the trace between two worlds. *)
Definition emitted {F} (w w' : world F) : list (sink_call F) :=
  drop (length (sink w)) (sink w').

(** *** Keys of the state store *)

(** The key of a flag of a sender: [senderID + "_" + flag]. *)
Definition flagKey (senderID flag : string) : string :=
  senderID +:+ ("_" +:+ flag).

(** A flag is set when its key is present with the value [true]. *)
Definition isSet {F} (w : world F) (key : string) : bool :=
  match eventState w !! key with
  | Some b => b
  | None => false
  end.

Definition flagNames : list string :=
  ["POWER_BACKUP_MODE"; "POWER_RESTORE_MODE"; "ALARM_METER_DEVICE";
   "CLEAR_ALARM_METER_DEVICE"].

(** A key built from a sender and one of the four flag names. *)
Definition own (senderID key : string) : Prop :=
  exists flag, In flag flagNames /\ key = flagKey senderID flag.

(** *** Timestamps of the emitted records *)

(** The time that a call on a collaborator carries; the insertion of the
    geolocation handler carries none. *)
Definition call_time {F} (c : sink_call F) : option Z :=
  match c with
  | DbInsert _ _ t => Some t
  | Publish d => Some (dp_time d)
  | DbInsertGeo _ _ => None
  end.

Section Notions.

Variable E : Env.

Local Abbreviation F := (float64 E).

(** The two records of one emission: the insertion and the datapoint. *)
Definition emit (m : EventMessage F) : list (sink_call F) :=
  [DbInsert (Sumber m) (Msg m) (Time m);
   Publish (mkDatapoint (EventName m) (Tag m) (Value m) (Time m) (Sumber m))].

(** The decoding that opens a handler, as one function. *)
Definition decodeTimestamp (message : string) : option Z :=
  match json_Unmarshal E message with
  | Some msgData => parseTimestamp E msgData
  | None => None
  end.

Definition powerPln (v : Z) (senderID message : string) (timestamp : Z)
    : EventMessage F :=
  mkEventMessage "POWER_PLN" ("power_pln_" +:+ senderID) (VInt v) true
                 message timestamp senderID.

Definition primitive (event tagPrefix : string) (v : Z)
    (senderID message : string) (timestamp : Z) : EventMessage F :=
  mkEventMessage event (tagPrefix +:+ senderID) (VInt v) true
                 message timestamp senderID.

(** [w'] extends the trace of [w] with calls that all carry the time [t]. *)
Definition stamped_by (t : Z) (w w' : world F) : Prop :=
  exists l, sink w' = sink w ++ l
            /\ Forall (fun c => call_time c = Some t) l.

(** What the deliveries of a sender [A] do to the store between [w] and
    [w']: a key is as it was, or it is a key of [A] and is now [true], or
    it is one of the two one-shot keys of [A] and is now absent. *)
Definition footprint (A : string) (w w' : world F) : Prop :=
  forall key,
    eventState w' !! key = eventState w !! key
    \/ (own A key /\ eventState w' !! key = Some true)
    \/ ((key = flagKey A "POWER_RESTORE_MODE"
         \/ key = flagKey A "CLEAR_ALARM_METER_DEVICE")
        /\ eventState w' !! key = None).

End Notions.

(** *** The conjunction as the design document reads it

    The two events that feed the conjunction, and the number of POWER_PLN
    records of value 1 that a level-triggered engine emits on a sequence of
    them: one for every event after whose flag update both flags are set.
    [b] and [a] are the flags POWER_BACKUP_MODE and ALARM_METER_DEVICE
    before the sequence. *)

Inductive conj_event : Type := Backup | Alarm.

Definition conj_name (k : conj_event) : string :=
  match k with
  | Backup => "POWER_BACKUP_MODE"
  | Alarm => "ALARM_METER_DEVICE"
  end.

Fixpoint level_fires (b a : bool) (ks : list conj_event) : nat :=
  match ks with
  | [] => 0
  | Backup :: ks' => ((if a then 1 else 0) + level_fires true a ks')%nat
  | Alarm :: ks' => ((if b then 1 else 0) + level_fires b true ks')%nat
  end.

(** The deliveries of a sequence of events of one sender. *)
Definition deliveries {K} (name : K -> string) (senderID : string)
    (l : list (K * string)) : list (string * string * string) :=
  map (fun km => (name km.1, senderID, km.2)) l.

(** The two clearing events. *)
Inductive clear_event : Type := Restore | ClearAlarm.

Definition clear_name (k : clear_event) : string :=
  match k with
  | Restore => "POWER_RESTORE_MODE"
  | ClearAlarm => "CLEAR_ALARM_METER_DEVICE"
  end.

(** The four events that take part in the correlation. *)
Inductive corr_event : Type :=
| PowerBackupMode | PowerRestoreMode | AlarmMeterDevice | ClearAlarmMeterDevice.

Definition corr_name (k : corr_event) : string :=
  match k with
  | PowerBackupMode => "POWER_BACKUP_MODE"
  | PowerRestoreMode => "POWER_RESTORE_MODE"
  | AlarmMeterDevice => "ALARM_METER_DEVICE"
  | ClearAlarmMeterDevice => "CLEAR_ALARM_METER_DEVICE"
  end.

(** The ways in which the decoding of a payload fails. *)
Inductive decode_failure (E : Env) (message : string) : Prop :=
| unmarshal_error :
    json_Unmarshal E message = None -> decode_failure E message
| timestamp_not_string (msgData : gmap string (JSON (float64 E))) :
    json_Unmarshal E message = Some msgData ->
    (forall s, msgData !! "timestamp" <> Some (JString s)) ->
    decode_failure E message
| timestamp_not_number (msgData : gmap string (JSON (float64 E)))
    (timestampStr : string) :
    json_Unmarshal E message = Some msgData ->
    msgData !! "timestamp" = Some (JString timestampStr) ->
    ParseFloat E timestampStr = None ->
    decode_failure E message.

(** The events whose handler needs nothing of the payload but the
    timestamp. *)
Definition timestamp_only (event : string) : bool :=
  existsb (String.eqb event)
    ["ALARM_METER_TEMPER"; "CLEAR_ALARM_METER_TEMPER"; "POWER_BACKUP_MODE";
     "POWER_RESTORE_MODE"; "STATUS_MODEM_ON"; "STATUS_MODEM_OFF";
     "ALARM_TEMPERATURE"; "CLEAR_ALARM_TEMPERATURE"; "ALARM_METER_DEVICE";
     "CLEAR_ALARM_METER_DEVICE"].

(** *** Records of one delivery *)

(** Which POWER_PLN value goes with which event: 1 with the two events of
    the conjunction, 0 with the two clearing events. *)
Definition polarity (v : Z) (event : string) : Prop :=
  v = 1 /\ (event = "POWER_BACKUP_MODE" \/ event = "ALARM_METER_DEVICE")
  \/ v = 0 /\ (event = "POWER_RESTORE_MODE"
               \/ event = "CLEAR_ALARM_METER_DEVICE").

(** The record that a handler builds for its own event, from a delivery
    of [event] by [senderID] with payload [message] decoded to [ts].  The
    handler of SET_TEMPERATURE leaves the name of the event empty. *)
Definition is_own_record {F} (event senderID message : string) (ts : Z)
    (r : EventMessage F) : Prop :=
  Sumber r = senderID /\ Msg r = message /\ Time r = ts /\ Status r = true
  /\ EventName r = if String.eqb event "SET_TEMPERATURE" then "" else event.

(** The sender that a call on a collaborator names. *)
Definition call_sender {F} (c : sink_call F) : string :=
  match c with
  | DbInsert s _ _ => s
  | DbInsertGeo s _ => s
  | Publish d => dp_id_modem d
  end.

(** The name of the event of a published datapoint. *)
Definition call_event {F} (c : sink_call F) : option string :=
  match c with
  | Publish d => Some (dp_event d)
  | _ => None
  end.

(** The payload that an insertion of the handlers other than the
    geolocation one stores. *)
Definition call_payload {F} (c : sink_call F) : option string :=
  match c with
  | DbInsert _ m _ => Some m
  | _ => None
  end.

(** Every value of the store is [true]. *)
Definition all_true {F} (w : world F) : Prop :=
  forall key b, eventState w !! key = Some b -> b = true.

(** *** Characters of a string *)

Fixpoint all_chars (p : ascii -> bool) (s : string) : bool :=
  match s with
  | EmptyString => true
  | String c r => p c && all_chars p r
  end.

(** The first character of a string, if any, is outside a class. *)
Definition stops (p : ascii -> bool) (s : string) : bool :=
  match s with
  | EmptyString => true
  | String c _ => negb (p c)
  end.

Definition is_slash (c : ascii) : bool := Ascii.eqb c "/".

Fixpoint count_slash (s : string) : nat :=
  match s with
  | EmptyString => 0
  | String c r => ((if is_slash c then 1 else 0) + count_slash r)%nat
  end.

(** The value of a string of decimal digits. *)
Definition decimal (s : string) : Z :=
  number_of 10 (fun c => Z.of_N (N_of_ascii c) - 48) 0 s.

(** *** A sample world *)

(** A store in which both conjunction flags of the sender A are set. *)
Definition both_set : world Z :=
  mkWorld (<[flagKey "A" "ALARM_METER_DEVICE" := true]>
             (<[flagKey "A" "POWER_BACKUP_MODE" := true]> ∅)) [].

(** * Proofs *)

(** ** Traces and keys *)

Lemma emitted_app {F} (w w' : world F) (l : list (sink_call F)) :
  sink w' = sink w ++ l -> emitted w w' = l.
Proof. unfold emitted. intros ->. apply drop_app_length. Qed.

Lemma emitted_mkWorld {F} (es es' : gmap string bool)
    (t l : list (sink_call F)) :
  emitted (mkWorld es t) (mkWorld es' (t ++ l)) = l.
Proof. by apply emitted_app. Qed.

Lemma emitted_from {F} (w : world F) (es' : gmap string bool)
    (l : list (sink_call F)) :
  emitted w (mkWorld es' (sink w ++ l)) = l.
Proof. by apply emitted_app. Qed.

Lemma power_pln_count_app {F} (v : Z) (s : string) (l k : list (sink_call F)) :
  power_pln_count v s (l ++ k) = (power_pln_count v s l + power_pln_count v s k)%nat.
Proof. unfold power_pln_count. by rewrite List.filter_app, length_app. Qed.

Lemma power_pln_total_app {F} (s : string) (l k : list (sink_call F)) :
  power_pln_total s (l ++ k) = (power_pln_total s l + power_pln_total s k)%nat.
Proof. unfold power_pln_total. by rewrite List.filter_app, length_app. Qed.

Lemma isSet_insert_eq {F} (w : world F) (t : list (sink_call F)) (k : string) :
  isSet (mkWorld (<[k := true]> (eventState w)) t) k = true.
Proof. unfold isSet; simpl. by rewrite lookup_insert_eq. Qed.

Lemma isSet_insert_ne {F} (w : world F) (t : list (sink_call F))
    (k k' : string) (b : bool) :
  k <> k' -> isSet (mkWorld (<[k := b]> (eventState w)) t) k' = isSet w k'.
Proof. intros H. unfold isSet; simpl. by rewrite lookup_insert_ne. Qed.

Lemma append_inj_l (s a b : string) : s +:+ a = s +:+ b -> a = b.
Proof.
  induction s as [|c s IH]; simpl; intros H; [exact H|].
  injection H as H. auto.
Qed.

Ltac key_ne :=
  let H := fresh in
  intros H; apply append_inj_l in H; discriminate H.

Ltac flags :=
  unfold isSet; cbn [eventState];
  repeat first
    [ rewrite lookup_insert_eq
    | rewrite lookup_delete_eq
    | rewrite lookup_empty
    | rewrite lookup_insert_ne by key_ne
    | rewrite lookup_delete_ne by key_ne ].

Section Correlation.

Variable E : Env.

Local Abbreviation F := (float64 E).

Lemma sink_emit (m : EventMessage F) (w : world F) :
  sendDataPoint E m (processAndSaveData E m w)
  = mkWorld (eventState w) (sink w ++ emit E m).
Proof.
  unfold sendDataPoint, processAndSaveData, call, emit; simpl.
  by rewrite <- app_assoc.
Qed.

Lemma isZeroEventMessage_zero : isZeroEventMessage E (zeroEventMessage E) = true.
Proof. reflexivity. Qed.

Lemma isZeroEventMessage_tag (m : EventMessage F) :
  Tag m <> "" -> isZeroEventMessage E m = false.
Proof.
  intros H. unfold isZeroEventMessage.
  destruct (String.eqb_spec (Tag m) ""); [contradiction|].
  by rewrite andb_false_r.
Qed.

Lemma emitWith_decoded (message : string) (mk : Z -> EventMessage F)
    (after : world F -> world F) (w : world F) (ts : Z) :
  decodeTimestamp E message = Some ts ->
  Tag (mk ts) <> "" ->
  emitWith E message mk after w
  = after (mkWorld (eventState w) (sink w ++ emit E (mk ts))).
Proof.
  unfold decodeTimestamp, emitWith. intros Hd Ht.
  destruct (json_Unmarshal E message) as [d|]; [|discriminate].
  rewrite Hd, (isZeroEventMessage_tag _ Ht); simpl.
  by rewrite sink_emit.
Qed.

Lemma emitWith_undecoded (message : string) (mk : Z -> EventMessage F)
    (after : world F -> world F) (w : world F) :
  decodeTimestamp E message = None ->
  emitWith E message mk after w = w.
Proof.
  unfold decodeTimestamp, emitWith. intros Hd.
  destruct (json_Unmarshal E message) as [d|]; [|done].
  by rewrite Hd.
Qed.

Lemma checkCombinedConditions_gate (senderID message event : string)
    (w : world F) :
  checkCombinedConditions E senderID message event w
  = if isSet w (flagKey senderID "ALARM_METER_DEVICE")
       && isSet w (flagKey senderID "POWER_BACKUP_MODE")
    then handlePowerPln E senderID message event w
    else w.
Proof.
  unfold checkCombinedConditions, isSet, Load, flagKey; simpl.
  destruct (eventState w !! _) as [[]|]; simpl; try done;
    destruct (eventState w !! _) as [[]|]; done.
Qed.


Lemma handlePowerPln_decoded_conj (senderID message event key : string)
    (w : world F) (ts : Z) :
  decodeTimestamp E message = Some ts ->
  (event = "POWER_BACKUP_MODE" /\ key = flagKey senderID "POWER_BACKUP_MODE"
   \/ event = "ALARM_METER_DEVICE"
      /\ key = flagKey senderID "ALARM_METER_DEVICE") ->
  handlePowerPln E senderID message event w
  = let w1 := Store E key true w in
    if isSet w1 (flagKey senderID "ALARM_METER_DEVICE")
       && isSet w1 (flagKey senderID "POWER_BACKUP_MODE")
    then mkWorld (eventState w1)
                 (sink w ++ emit E (powerPln E 1 senderID message ts))
    else w1.
Proof.
  unfold decodeTimestamp, handlePowerPln. intros Hd Hev.
  destruct (json_Unmarshal E message) as [d|]; [|discriminate].
  rewrite Hd.
  destruct Hev as [[-> ->]|[-> ->]]; cbn [String.eqb Ascii.eqb Bool.eqb orb];
    unfold isSet, Load, flagKey; simpl;
    destruct (_ !! _) as [[]|]; simpl; try done;
    destruct (_ !! _) as [[]|]; simpl; try done;
    by rewrite sink_emit.
Qed.


Lemma handleClearPowerPlnEvent_decoded (senderID message event key : string)
    (w : world F) (ts : Z) :
  decodeTimestamp E message = Some ts ->
  (event = "POWER_RESTORE_MODE" /\ key = flagKey senderID "POWER_RESTORE_MODE"
   \/ event = "CLEAR_ALARM_METER_DEVICE"
      /\ key = flagKey senderID "CLEAR_ALARM_METER_DEVICE") ->
  handleClearPowerPlnEvent E senderID message event w
  = let w1 := Store E key true w in
    let c := isSet w1 (flagKey senderID "CLEAR_ALARM_METER_DEVICE") in
    let r := isSet w1 (flagKey senderID "POWER_RESTORE_MODE") in
    let es1 := if c then delete (flagKey senderID "CLEAR_ALARM_METER_DEVICE")
                               (eventState w1)
               else eventState w1 in
    mkWorld (if r then delete (flagKey senderID "POWER_RESTORE_MODE") es1
             else es1)
            (sink w ++ emit E (powerPln E 0 senderID message ts)).
Proof.
  unfold decodeTimestamp, handleClearPowerPlnEvent. intros Hd Hev.
  destruct (json_Unmarshal E message) as [d|]; [|discriminate].
  rewrite Hd.
  cbv zeta.
  destruct Hev as [[-> ->]|[-> ->]]; cbn [String.eqb Ascii.eqb Bool.eqb];
    rewrite sink_emit;
    unfold isSet, Load, Store, Delete; cbn [eventState sink].
  - change (senderID +:+ "_POWER_RESTORE_MODE")
      with (flagKey senderID "POWER_RESTORE_MODE").
    change (senderID +:+ "_CLEAR_ALARM_METER_DEVICE")
      with (flagKey senderID "CLEAR_ALARM_METER_DEVICE").
    rewrite lookup_insert_eq, orb_true_r.
    destruct (_ !! _) as [[]|]; reflexivity.
  - change (senderID +:+ "_POWER_RESTORE_MODE")
      with (flagKey senderID "POWER_RESTORE_MODE").
    change (senderID +:+ "_CLEAR_ALARM_METER_DEVICE")
      with (flagKey senderID "CLEAR_ALARM_METER_DEVICE").
    rewrite lookup_insert_eq. cbn [orb].
    destruct (_ !! _) as [[]|]; reflexivity.
Qed.

Section Steps.

Variables (senderID message : string) (ts : Z) (w : world F).
Hypothesis decoded : decodeTimestamp E message = Some ts.

Let ak := flagKey senderID "ALARM_METER_DEVICE".
Let bk := flagKey senderID "POWER_BACKUP_MODE".
Let rk := flagKey senderID "POWER_RESTORE_MODE".
Let ck := flagKey senderID "CLEAR_ALARM_METER_DEVICE".

Lemma backup_step :
  handlePowerBackupModeEvent E senderID message "POWER_BACKUP_MODE" w
  = mkWorld (<[bk := true]> (eventState w))
      (sink w
       ++ emit E (primitive E "POWER_BACKUP_MODE" "power_modem_" 1
                          senderID message ts)
       ++ if isSet w ak then emit E (powerPln E 1 senderID message ts) else []).
Proof.
  unfold handlePowerBackupModeEvent.
  rewrite (emitWith_decoded _ _ _ _ ts decoded); [|discriminate].
  rewrite checkCombinedConditions_gate.
  rewrite (handlePowerPln_decoded_conj _ _ _ bk _ ts decoded); [|by left].
  unfold isSet, Store; cbn [eventState sink].
  rewrite insert_insert_eq.
  fold bk ak. rewrite lookup_insert_eq, (lookup_insert_ne _ bk ak); [|key_ne].
  destruct (eventState w !! ak) as [[]|]; cbn [andb];
    rewrite ?app_nil_r, <- ?app_assoc; reflexivity.
Qed.

Lemma alarm_step :
  handleAlarmMeterDeviceEvent E senderID message "ALARM_METER_DEVICE" w
  = mkWorld (<[ak := true]> (eventState w))
      (sink w
       ++ emit E (primitive E "ALARM_METER_DEVICE" "alarm_connection_missing_" 1
                          senderID message ts)
       ++ if isSet w bk then emit E (powerPln E 1 senderID message ts) else []).
Proof.
  unfold handleAlarmMeterDeviceEvent.
  rewrite (emitWith_decoded _ _ _ _ ts decoded); [|discriminate].
  rewrite checkCombinedConditions_gate.
  rewrite (handlePowerPln_decoded_conj _ _ _ ak _ ts decoded); [|by right].
  unfold isSet, Store; cbn [eventState sink].
  rewrite insert_insert_eq.
  fold bk ak. rewrite lookup_insert_eq, (lookup_insert_ne _ ak bk); [|key_ne].
  destruct (eventState w !! bk) as [[]|]; cbn [andb];
    rewrite ?app_nil_r, <- ?app_assoc; reflexivity.
Qed.

Lemma restore_step :
  handlePowerRestoreModeEvent E senderID message "POWER_RESTORE_MODE" w
  = if isSet w ak && isSet w bk
    then mkWorld
           (delete rk (if isSet w ck
                       then delete ck (<[rk := true]> (eventState w))
                       else <[rk := true]> (eventState w)))
           (sink w
            ++ emit E (primitive E "POWER_RESTORE_MODE" "power_modem_" 0
                               senderID message ts)
            ++ emit E (powerPln E 0 senderID message ts))
    else mkWorld (<[rk := true]> (eventState w))
           (sink w
            ++ emit E (primitive E "POWER_RESTORE_MODE" "power_modem_" 0
                               senderID message ts)).
Proof.
  unfold handlePowerRestoreModeEvent.
  rewrite (emitWith_decoded _ _ _ _ ts decoded); [|discriminate].
  rewrite checkCombinedConditions_gate.
  unfold isSet at 1 2, Store; cbn [eventState sink]. fold rk ak bk.
  rewrite (lookup_insert_ne _ rk ak), (lookup_insert_ne _ rk bk);
    [|key_ne|key_ne].
  fold (isSet w ak) (isSet w bk).
  destruct (isSet w ak && isSet w bk); [|reflexivity].
  unfold handlePowerPln. fold (decodeTimestamp E message).
  generalize decoded; unfold decodeTimestamp at 1.
  destruct (json_Unmarshal E message) as [d|]; [|discriminate].
  intros ->. cbn [String.eqb Ascii.eqb Bool.eqb orb].
  rewrite (handleClearPowerPlnEvent_decoded _ _ _ rk _ ts decoded); [|by left].
  unfold isSet, Store; cbn [eventState sink]. fold rk ck.
  rewrite insert_insert_eq, lookup_insert_eq,
    (lookup_insert_ne _ rk ck); [|key_ne].
  by rewrite <- app_assoc.
Qed.

Lemma clear_step :
  handleClearAlarmMeterDeviceEvent E senderID message
    "CLEAR_ALARM_METER_DEVICE" w
  = if isSet w bk
    then mkWorld
           (let es1 := delete ck (<[ck := true]> (<[ak := true]> (eventState w)))
            in if isSet w rk then delete rk es1 else es1)
           (sink w
            ++ emit E (primitive E "CLEAR_ALARM_METER_DEVICE"
                               "alarm_connection_missing_" 0
                               senderID message ts)
            ++ emit E (powerPln E 0 senderID message ts))
    else mkWorld (<[ak := true]> (eventState w))
           (sink w
            ++ emit E (primitive E "CLEAR_ALARM_METER_DEVICE"
                               "alarm_connection_missing_" 0
                               senderID message ts)).
Proof.
  unfold handleClearAlarmMeterDeviceEvent.
  rewrite (emitWith_decoded _ _ _ _ ts decoded); [|discriminate].
  rewrite checkCombinedConditions_gate.
  unfold isSet at 1 2, Store; cbn [eventState sink]. fold ak bk.
  rewrite lookup_insert_eq, (lookup_insert_ne _ ak bk); [|key_ne].
  fold (isSet w bk). cbn [andb].
  destruct (isSet w bk); [|reflexivity].
  unfold handlePowerPln. fold (decodeTimestamp E message).
  generalize decoded; unfold decodeTimestamp at 1.
  destruct (json_Unmarshal E message) as [d|]; [|discriminate].
  intros ->. cbn [String.eqb Ascii.eqb Bool.eqb orb].
  rewrite (handleClearPowerPlnEvent_decoded _ _ _ ck _ ts decoded); [|by right].
  unfold isSet, Store; cbn [eventState sink]. fold rk ck ak.
  rewrite lookup_insert_eq, (lookup_insert_ne _ ck rk), (lookup_insert_ne _ ak rk);
    [|key_ne|key_ne].
  by rewrite <- app_assoc.
Qed.

End Steps.

(** *** Counting the records of one emission *)

Lemma count_primitive (v v' : Z) (s event tagPrefix senderID message : string)
    (ts : Z) :
  String.eqb event "POWER_PLN" = false ->
  power_pln_count v s
    (emit E (primitive E event tagPrefix v' senderID message ts)) = 0%nat.
Proof.
  intros H. unfold power_pln_count, emit, primitive, is_power_pln; simpl.
  by rewrite H.
Qed.

Lemma total_primitive (v' : Z) (s event tagPrefix senderID message : string)
    (ts : Z) :
  String.eqb event "POWER_PLN" = false ->
  power_pln_total s
    (emit E (primitive E event tagPrefix v' senderID message ts)) = 0%nat.
Proof.
  intros H. unfold power_pln_total, emit, primitive; simpl.
  by rewrite H.
Qed.

Lemma count_powerPln (v v' : Z) (senderID message : string) (ts : Z) :
  power_pln_count v senderID (emit E (powerPln E v' senderID message ts))
  = if v' =? v then 1%nat else 0%nat.
Proof.
  unfold power_pln_count, emit, powerPln, is_power_pln; simpl.
  rewrite String.eqb_refl; simpl. by destruct (v' =? v).
Qed.

Lemma total_powerPln (v' : Z) (senderID message : string) (ts : Z) :
  power_pln_total senderID (emit E (powerPln E v' senderID message ts)) = 1%nat.
Proof.
  unfold power_pln_total, emit, powerPln; simpl.
  by rewrite String.eqb_refl.
Qed.

End Correlation.

Lemma level_fires_both (ks : list conj_event) :
  level_fires true true ks = length ks.
Proof. induction ks as [|[] ks IH]; simpl; congruence. Qed.

Lemma decode_failure_None (E : Env) (message : string) :
  decode_failure E message <-> decodeTimestamp E message = None.
Proof.
  unfold decodeTimestamp, parseTimestamp. split.
  - intros [H|d H Hn|d s H Hs Hp]; rewrite H; [done| |by rewrite Hs, Hp].
    destruct (d !! "timestamp") as [[| | |s| |]|]; try done.
    by destruct (Hn s).
  - destruct (json_Unmarshal E message) as [d|] eqn:H;
      [|intros _; by apply unmarshal_error].
    destruct (d !! "timestamp") as [j|] eqn:Hj.
    + destruct j as [| | |s| |];
        try (intros _; apply (timestamp_not_string _ _ d H); congruence).
      destruct (ParseFloat E s) eqn:Hp; [discriminate|].
      intros _. by apply (timestamp_not_number _ _ d s).
    + intros _. apply (timestamp_not_string _ _ d H); congruence.
Qed.

(** ** Timestamps of the emitted records *)

Section Stamps.

Variable E : Env.
Variable t : Z.

Local Abbreviation F := (float64 E).
Local Abbreviation stamped := (stamped_by E t).

Lemma stamped_refl (w : world F) : stamped w w.
Proof. exists []. by rewrite app_nil_r. Qed.

Lemma stamped_trans (w1 w2 w3 : world F) :
  stamped w1 w2 -> stamped w2 w3 -> stamped w1 w3.
Proof.
  intros [l [H1 F1]] [k [H2 F2]]. exists (l ++ k).
  rewrite H2, H1, app_assoc. split; [done|]. by apply Forall_app.
Qed.

Lemma stamped_Store (w w' : world F) (key : string) (v : bool) :
  stamped w w' -> stamped w (Store E key v w').
Proof. intros [l H]. by exists l. Qed.

Lemma stamped_Delete (w w' : world F) (key : string) :
  stamped w w' -> stamped w (Delete E key w').
Proof. intros [l H]. by exists l. Qed.

Lemma stamped_if (b : bool) (w x y : world F) :
  stamped w x -> stamped w y -> stamped w (if b then x else y).
Proof. by destruct b. Qed.

Lemma stamped_emit (m : EventMessage F) (w w' : world F) :
  Time m = t -> stamped w w' ->
  stamped w (sendDataPoint E m (processAndSaveData E m w')).
Proof.
  intros H Hw. apply (stamped_trans _ _ _ Hw).
  rewrite sink_emit. exists (emit E m). split; [done|].
  unfold emit. repeat constructor; simpl; congruence.
Qed.

Ltac stamps :=
  repeat first
    [ apply stamped_refl
    | apply stamped_if
    | apply stamped_Delete
    | apply stamped_Store
    | apply stamped_emit; [reflexivity|] ].

Lemma handleClearPowerPlnEvent_stamped (senderID message event : string)
    (w : world F) :
  decodeTimestamp E message = Some t ->
  stamped w (handleClearPowerPlnEvent E senderID message event w).
Proof.
  unfold decodeTimestamp, handleClearPowerPlnEvent. intros Hd.
  destruct (json_Unmarshal E message) as [d|]; [|discriminate].
  rewrite Hd. cbv zeta.
  destruct (String.eqb event "POWER_RESTORE_MODE"); [stamps|].
  destruct (String.eqb event "CLEAR_ALARM_METER_DEVICE"); stamps.
Qed.

Lemma handlePowerPln_stamped (senderID message event : string) (w : world F) :
  decodeTimestamp E message = Some t ->
  stamped w (handlePowerPln E senderID message event w).
Proof.
  intros Hd. pose proof (handleClearPowerPlnEvent_stamped senderID message
                           event w Hd) as Hc.
  revert Hd. unfold decodeTimestamp, handlePowerPln.
  destruct (json_Unmarshal E message) as [d|]; [|discriminate].
  intros ->. cbv zeta.
  destruct (String.eqb event "POWER_BACKUP_MODE"); cbn [orb]; [stamps|].
  destruct (String.eqb event "ALARM_METER_DEVICE"); cbn [orb]; [stamps|].
  destruct (_ || _); [exact Hc|stamps].
Qed.

Lemma checkCombinedConditions_stamped (senderID message event : string)
    (w0 w : world F) :
  decodeTimestamp E message = Some t ->
  stamped w0 w ->
  stamped w0 (checkCombinedConditions E senderID message event w).
Proof.
  intros Hd Hw. rewrite checkCombinedConditions_gate.
  apply stamped_if; [|exact Hw].
  exact (stamped_trans _ _ _ Hw (handlePowerPln_stamped _ _ _ _ Hd)).
Qed.

(** A handler built on [emitWith] emits its own record first. *)
Lemma emitWith_stamped (message : string) (mk : Z -> EventMessage F)
    (after : world F -> world F) (w : world F) :
  decodeTimestamp E message = Some t ->
  Tag (mk t) <> "" -> Time (mk t) = t ->
  (forall w0 w1, stamped w0 w1 -> stamped w0 (after w1)) ->
  exists l,
    sink (emitWith E message mk after w) = sink w ++ emit E (mk t) ++ l
    /\ Forall (fun c => call_time c = Some t) (emit E (mk t) ++ l).
Proof.
  intros Hd Htag Ht Hafter.
  rewrite (emitWith_decoded E _ _ _ _ t Hd Htag).
  destruct (Hafter (mkWorld (eventState w) (sink w ++ emit E (mk t)))
                   (mkWorld (eventState w) (sink w ++ emit E (mk t)))
                   (stamped_refl _)) as [l [Hl Fl]].
  exists l. rewrite Hl; cbn [sink]. rewrite <- app_assoc. split; [done|].
  apply Forall_app. split; [|exact Fl].
  unfold emit. repeat constructor; simpl; congruence.
Qed.

Lemma handleTemperatureEvent_stamped (senderID message event : string)
    (w : world F) :
  decodeTimestamp E message = Some t ->
  stamped w (handleTemperatureEvent E senderID message event w).
Proof.
  unfold decodeTimestamp, handleTemperatureEvent.
  destruct (json_Unmarshal E message) as [d|]; [|discriminate].
  intros ->. destruct (d !! "message"); cbv zeta; stamps.
Qed.

Lemma handleSetTemperatureEvents_stamped (senderID message : string)
    (w w' : world F) :
  decodeTimestamp E message = Some t ->
  handleSetTemperatureEvents E senderID message w = Done w' ->
  stamped w w'.
Proof.
  unfold decodeTimestamp, handleSetTemperatureEvents.
  destruct (json_Unmarshal E message) as [d|]; [|discriminate].
  intros ->. destruct (d !! "message") as [[| | |text| |]|]; try discriminate.
  cbv zeta. destruct (negb _); intros [= <-]; stamps.
Qed.

Ltac own_record Hd :=
  let l := fresh "l" in
  let Hl := fresh "Hl" in
  let Fl := fresh "Fl" in
  match goal with
  | |- context [emitWith E ?m ?mk ?after ?w] =>
      destruct (emitWith_stamped m mk after w Hd) as [l [Hl Fl]];
      [ discriminate
      | reflexivity
      | first [ intros ? ? H; exact H
              | intros ? ? H; apply checkCombinedConditions_stamped;
                [exact Hd | by apply stamped_Store] ]
      | eexists; split; [exact Hl|]; split; [exact Fl|intros _; reflexivity] ]
  end.

(** Every record that one delivery appends carries the decoded time, the
    geolocation event apart; the events that need only the timestamp do
    append their own record. *)
Lemma dispatch_stamped (event A m : string) (w w' : world F) :
  decodeTimestamp E m = Some t ->
  event <> "GEOLOCATION" ->
  dispatch E event A m w = Done w' ->
  exists l,
    sink w' = sink w ++ l
    /\ Forall (fun c => call_time c = Some t) l
    /\ (timestamp_only event = true -> hd_error l = Some (DbInsert A m t)).
Proof.
  intros Hd Hg. unfold dispatch.
  repeat match goal with
         | |- (if String.eqb event ?name then _ else _) = _ -> _ =>
             destruct (String.eqb_spec event name) as [->|?]
         end;
    try (intros [= <-];
         unfold handleAlarmMeterDeviceTemperEvent,
           handleClearAlarmMeterDeviceTemperEvent, handlePowerBackupModeEvent,
           handlePowerRestoreModeEvent, handleStatusModemOn,
           handleStatusModemOff, handleAlarmTemperatureEvent,
           handleClearAlarmTemperatureEvent, handleAlarmMeterDeviceEvent,
           handleClearAlarmMeterDeviceEvent, forwardEvent;
         own_record Hd).
  - intros [= <-].
    destruct (handleTemperatureEvent_stamped A m "TEMPERATURE" w Hd)
      as [l [Hl Fl]].
    exists l. split; [done|]. split; [done|]. discriminate.
  - intros Hs.
    destruct (handleSetTemperatureEvents_stamped A m w w' Hd Hs) as [l [Hl Fl]].
    exists l. split; [done|]. split; [done|]. discriminate.
  - done.
  - intros [= <-]. exists []. rewrite app_nil_r.
    split; [done|]. split; [constructor|].
    unfold timestamp_only. cbn [existsb].
    repeat match goal with
           | |- context [String.eqb event ?name] =>
               destruct (String.eqb_spec event name) as [->|_];
               [congruence|]
           end.
    discriminate.
Qed.

End Stamps.

(** ** The keys a delivery writes *)

Section Frame.

Variable E : Env.
Variable A : string.

Local Abbreviation F := (float64 E).
Local Abbreviation touched := (footprint E A).

Lemma touched_refl (w : world F) : touched w w.
Proof. intros key. by left. Qed.

Lemma touched_Store (w w' : world F) (key : string) :
  own A key -> touched w w' -> touched w (Store E key true w').
Proof.
  intros Ho Hc k. cbn [Store eventState].
  destruct (decide (key = k)) as [<-|Hn].
  - right. left. by rewrite lookup_insert_eq.
  - rewrite lookup_insert_ne by done. apply Hc.
Qed.

Lemma touched_Delete (w w' : world F) (key : string) :
  key = flagKey A "POWER_RESTORE_MODE"
  \/ key = flagKey A "CLEAR_ALARM_METER_DEVICE" ->
  touched w w' -> touched w (Delete E key w').
Proof.
  intros Ho Hc k. cbn [Delete eventState].
  destruct (decide (key = k)) as [<-|Hn].
  - right. right. by rewrite lookup_delete_eq.
  - rewrite lookup_delete_ne by done. apply Hc.
Qed.

Lemma touched_if (b : bool) (w x y : world F) :
  touched w x -> touched w y -> touched w (if b then x else y).
Proof. by destruct b. Qed.

Lemma touched_call (c : sink_call F) (w w' : world F) :
  touched w w' -> touched w (call E c w').
Proof. intros Hc. exact Hc. Qed.

Ltac own_key :=
  first [ exists "POWER_BACKUP_MODE"; split; [simpl; tauto|reflexivity]
        | exists "POWER_RESTORE_MODE"; split; [simpl; tauto|reflexivity]
        | exists "ALARM_METER_DEVICE"; split; [simpl; tauto|reflexivity]
        | exists "CLEAR_ALARM_METER_DEVICE"; split; [simpl; tauto|reflexivity] ].

Ltac touch :=
  unfold sendDataPoint, processAndSaveData;
  repeat first
    [ assumption
    | apply touched_refl
    | apply touched_if
    | apply touched_call
    | apply touched_Delete; [first [by left | by right]|]
    | apply touched_Store; [own_key|] ].

Lemma handleClearPowerPlnEvent_touched (message event : string)
    (w0 w : world F) :
  touched w0 w ->
  touched w0 (handleClearPowerPlnEvent E A message event w).
Proof.
  intros Hw. unfold handleClearPowerPlnEvent.
  destruct (json_Unmarshal E message) as [d|]; [|done].
  destruct (parseTimestamp E d); [|done]. cbv zeta.
  destruct (String.eqb event "POWER_RESTORE_MODE"); [touch|].
  destruct (String.eqb event "CLEAR_ALARM_METER_DEVICE"); touch.
Qed.

Lemma handlePowerPln_touched (message event : string) (w0 w : world F) :
  touched w0 w -> touched w0 (handlePowerPln E A message event w).
Proof.
  intros Hw.
  pose proof (handleClearPowerPlnEvent_touched message event w0 w Hw) as Hc.
  unfold handlePowerPln.
  destruct (json_Unmarshal E message) as [d|]; [|done].
  destruct (parseTimestamp E d); [|done]. cbv zeta.
  destruct (String.eqb event "POWER_BACKUP_MODE"); cbn [orb]; [touch|].
  destruct (String.eqb event "ALARM_METER_DEVICE"); cbn [orb]; [touch|].
  destruct (_ || _); [exact Hc|touch].
Qed.

Lemma checkCombinedConditions_touched (message event : string)
    (w0 w : world F) :
  touched w0 w -> touched w0 (checkCombinedConditions E A message event w).
Proof.
  intros Hw. rewrite checkCombinedConditions_gate.
  apply touched_if; [by apply handlePowerPln_touched|exact Hw].
Qed.

Lemma emitWith_touched (message : string) (mk : Z -> EventMessage F)
    (after : world F -> world F) (w : world F) :
  (forall w1, touched w w1 -> touched w (after w1)) ->
  touched w (emitWith E message mk after w).
Proof.
  intros Hafter. unfold emitWith.
  destruct (json_Unmarshal E message) as [d|]; [|touch].
  destruct (parseTimestamp E d); [|touch]. cbv zeta.
  apply touched_if; [|touch]. apply Hafter. touch.
Qed.

(** The footprint of one delivery. *)
Lemma dispatch_footprint (event m : string) (w w' : world F) :
  dispatch E event A m w = Done w' -> footprint E A w w'.
Proof.
  unfold dispatch.
  repeat match goal with
         | |- (if String.eqb event ?name then _ else _) = _ -> _ =>
             destruct (String.eqb_spec event name) as [->|?]
         end;
    try (intros [= <-];
         unfold handleAlarmMeterDeviceTemperEvent,
           handleClearAlarmMeterDeviceTemperEvent, handlePowerBackupModeEvent,
           handlePowerRestoreModeEvent, handleStatusModemOn,
           handleStatusModemOff, handleAlarmTemperatureEvent,
           handleClearAlarmTemperatureEvent, handleAlarmMeterDeviceEvent,
           handleClearAlarmMeterDeviceEvent, forwardEvent;
         apply emitWith_touched; intros w1 Hw1;
         first [ exact Hw1
               | apply checkCombinedConditions_touched; touch ]).
  - intros [= <-]. unfold handleTemperatureEvent.
    repeat case_match; touch.
  - unfold handleSetTemperatureEvents.
    repeat case_match; intros [= <-]; touch.
  - intros [= <-]. unfold handleGeolocationEvent.
    repeat case_match; touch.
  - intros [= <-]. touch.
Qed.

(** A delivery for [A] leaves every key that is not a key of [A] as it
    was. *)
Lemma dispatch_confined (event m : string) (w w' : world F) (key : string) :
  dispatch E event A m w = Done w' ->
  ~ own A key -> eventState w' !! key = eventState w !! key.
Proof.
  intros Hd Hk.
  destruct (dispatch_footprint event m w w' Hd key) as [H|[[Ho _]|[Ho _]]];
    [exact H|contradiction|].
  destruct Hk. destruct Ho as [->| ->]; own_key.
Qed.

(** A delivery for [A] removes neither conjunction flag of [A]. *)
Lemma dispatch_keeps_conjunction (event m flag : string) (w w' : world F) :
  flag = "POWER_BACKUP_MODE" \/ flag = "ALARM_METER_DEVICE" ->
  dispatch E event A m w = Done w' ->
  isSet w (flagKey A flag) = true -> isSet w' (flagKey A flag) = true.
Proof.
  intros Hf Hd Hs. unfold isSet in *.
  destruct (dispatch_footprint event m w w' Hd (flagKey A flag))
    as [->|[[_ ->]|[Hk _]]]; [exact Hs|reflexivity|].
  exfalso. destruct Hf as [->| ->], Hk as [Hk|Hk]; revert Hk; key_ne.
Qed.

End Frame.

(** ** When two senders share a key *)

Lemma append_eq_cases (a b s t : string) :
  a +:+ s = b +:+ t ->
  (exists p, a = b +:+ p /\ t = p +:+ s)
  \/ (exists p, b = a +:+ p /\ s = p +:+ t).
Proof.
  revert b. induction a as [|c a IH]; intros b H.
  - right. by exists b.
  - destruct b as [|c' b].
    + left. by exists (String c a).
    + simpl in H. injection H as -> H.
      destruct (IH b H) as [[p [-> ->]]|[p [-> ->]]];
        [left|right]; by exists p.
Qed.

Lemma append_empty_r (s : string) : s +:+ "" = s.
Proof.
  induction s as [|c s IH]; [done|].
  change (String c (s +:+ "") = String c s). by rewrite IH.
Qed.

(** Solve [t = p +:+ s] for [p] when [s] and [t] are given strings. *)
Ltac peel p H :=
  cbv in H;
  destruct p as [|? p];
  [ try discriminate H
  | cbv in H; try discriminate H;
    injection H as ? H; subst; peel p H ].

(** Two senders have a key in common only if they are equal, or if one is
    the other followed by [_CLEAR]: the name ALARM_METER_DEVICE is the end
    of the name CLEAR_ALARM_METER_DEVICE. *)
Lemma flagKey_collision (a b f g : string) :
  In f flagNames -> In g flagNames ->
  flagKey a f = flagKey b g ->
  a = b /\ f = g
  \/ a = b +:+ "_CLEAR" /\ f = "ALARM_METER_DEVICE"
     /\ g = "CLEAR_ALARM_METER_DEVICE"
  \/ b = a +:+ "_CLEAR" /\ g = "ALARM_METER_DEVICE"
     /\ f = "CLEAR_ALARM_METER_DEVICE".
Proof.
  unfold flagNames, flagKey. simpl.
  intros Hf Hg H.
  destruct (append_eq_cases _ _ _ _ H) as [[p [-> Hp]]|[p [-> Hp]]];
    clear H;
    repeat match goal with
           | H : _ \/ _ |- _ => destruct H as [<-|H]
           | H : False |- _ => destruct H
           end;
    peel p Hp; rewrite ?append_empty_r; auto.
Qed.

(** ** Properties *)

Section Properties.

Variable E : Env.

Local Abbreviation F := (float64 E).

(** C3. Scenario 1: from an empty state store, POWER_BACKUP_MODE(A) then
    ALARM_METER_DEVICE(A), both of decodable payload.  The first delivery
    appends only its own record, no POWER_PLN datapoint; the second appends
    its own record and then exactly one POWER_PLN record of value 1. *)
Theorem C3_scenario1 (A m1 m2 : string) (ts1 ts2 : Z) (w0 : world F) :
  eventState w0 = ∅ ->
  decodeTimestamp E m1 = Some ts1 ->
  decodeTimestamp E m2 = Some ts2 ->
  exists w1 w2,
    dispatch E "POWER_BACKUP_MODE" A m1 w0 = Done w1
    /\ dispatch E "ALARM_METER_DEVICE" A m2 w1 = Done w2
    /\ emitted w0 w1
       = emit E (primitive E "POWER_BACKUP_MODE" "power_modem_" 1 A m1 ts1)
    /\ power_pln_total A (emitted w0 w1) = 0%nat
    /\ emitted w1 w2
       = emit E (primitive E "ALARM_METER_DEVICE" "alarm_connection_missing_"
                           1 A m2 ts2)
         ++ emit E (powerPln E 1 A m2 ts2)
    /\ power_pln_count 1 A (emitted w1 w2) = 1%nat
    /\ power_pln_total A (emitted w1 w2) = 1%nat.
Proof.
  intros Hes H1 H2.
  eexists _, _. split; [reflexivity|]. split; [reflexivity|].
  rewrite (backup_step E A m1 ts1 w0 H1).
  rewrite (alarm_step E A m2 ts2 _ H2).
  unfold isSet; cbn [eventState sink].
  rewrite Hes, lookup_empty, lookup_insert_eq, app_nil_r.
  rewrite emitted_from, emitted_mkWorld.
  split; [reflexivity|]. split; [by apply total_primitive|].
  split; [reflexivity|]. split.
  - rewrite power_pln_count_app, count_primitive, count_powerPln; done.
  - rewrite power_pln_total_app, total_primitive, total_powerPln; done.
Qed.

(** C1, amended.  Across a sequence of POWER_BACKUP_MODE and
    ALARM_METER_DEVICE events of one sender, all of decodable payload, the
    program emits one POWER_PLN record of value 1 for every event after
    whose flag update both flags are set: the emission is level-triggered.
    Once both flags are set, every further event of the sequence emits. *)
Theorem C1_level_triggered (A : string) (l : list (conj_event * string))
    (w : world F) :
  Forall (fun km => is_Some (decodeTimestamp E km.2)) l ->
  exists w',
    run E (deliveries conj_name A l) w = Done w'
    /\ power_pln_count 1 A (emitted w w')
       = level_fires (isSet w (flagKey A "POWER_BACKUP_MODE"))
                     (isSet w (flagKey A "ALARM_METER_DEVICE")) (map fst l)
    /\ (isSet w (flagKey A "POWER_BACKUP_MODE") = true ->
        isSet w (flagKey A "ALARM_METER_DEVICE") = true ->
        power_pln_count 1 A (emitted w w') = length l).
Proof.
  intros Hl.
  cut (exists w' new,
         run E (deliveries conj_name A l) w = Done w'
         /\ sink w' = sink w ++ new
         /\ power_pln_count 1 A new
            = level_fires (isSet w (flagKey A "POWER_BACKUP_MODE"))
                (isSet w (flagKey A "ALARM_METER_DEVICE")) (map fst l)).
  { intros (w' & new & Hr & Hs & Hc). exists w'.
    rewrite (emitted_app _ _ _ Hs). split; [done|]. split; [done|].
    intros Hb Ha. rewrite Hc, Hb, Ha, level_fires_both. apply length_map. }
  revert w. induction Hl as [|[k m] l [ts Hm] _ IH]; intros w.
  - exists w, []. by rewrite app_nil_r.
  - simpl in Hm. destruct k; cbn [deliveries map run conj_name fst snd].
    + change (dispatch E "POWER_BACKUP_MODE" A m w)
        with (Done (handlePowerBackupModeEvent E A m "POWER_BACKUP_MODE" w)).
      rewrite (backup_step E A m ts w Hm).
      destruct (IH (mkWorld (<[flagKey A "POWER_BACKUP_MODE" := true]> (eventState w))
                    (sink w ++ emit E (primitive E "POWER_BACKUP_MODE" "power_modem_" 1 A m ts)
                     ++ (if isSet w (flagKey A "ALARM_METER_DEVICE")
                         then emit E (powerPln E 1 A m ts) else []))))
        as [w' [new [Hr [Hs Hc]]]].
      exists w'. eexists. split; [exact Hr|]. split.
      * rewrite Hs. cbn [sink]. rewrite <- app_assoc. reflexivity.
      * rewrite !power_pln_count_app, Hc, count_primitive by reflexivity.
        rewrite isSet_insert_eq, isSet_insert_ne by key_ne.
        cbn [map fst level_fires].
        destruct (isSet w (flagKey A "ALARM_METER_DEVICE"));
          [rewrite count_powerPln|]; reflexivity.
    + change (dispatch E "ALARM_METER_DEVICE" A m w)
        with (Done (handleAlarmMeterDeviceEvent E A m "ALARM_METER_DEVICE" w)).
      rewrite (alarm_step E A m ts w Hm).
      destruct (IH (mkWorld (<[flagKey A "ALARM_METER_DEVICE" := true]> (eventState w))
                    (sink w ++ emit E (primitive E "ALARM_METER_DEVICE" "alarm_connection_missing_" 1 A m ts)
                     ++ (if isSet w (flagKey A "POWER_BACKUP_MODE")
                         then emit E (powerPln E 1 A m ts) else []))))
        as [w' [new [Hr [Hs Hc]]]].
      exists w'. eexists. split; [exact Hr|]. split.
      * rewrite Hs. cbn [sink]. rewrite <- app_assoc. reflexivity.
      * rewrite !power_pln_count_app, Hc, count_primitive by reflexivity.
        rewrite isSet_insert_eq, isSet_insert_ne by key_ne.
        cbn [map fst level_fires].
        destruct (isSet w (flagKey A "POWER_BACKUP_MODE"));
          [rewrite count_powerPln|]; reflexivity.
Qed.

(** C2, amended.  A POWER_RESTORE_MODE or CLEAR_ALARM_METER_DEVICE event of
    decodable payload emits a POWER_PLN record of value 0 behind the guard
    of [checkCombinedConditions]: exactly one when both conjunction flags
    of the sender are set, and then neither one-shot flag is set afterwards
    (the flag of the event is absent) and every other key is as before;
    none when POWER_BACKUP_MODE is not set, nor, for POWER_RESTORE_MODE,
    when ALARM_METER_DEVICE is not set, and then the POWER_RESTORE_MODE
    flag stays in the store. *)
Theorem C2_disjunction_gated (A m : string) (ts : Z) (k : clear_event)
    (w : world F) :
  decodeTimestamp E m = Some ts ->
  exists w',
    dispatch E (clear_name k) A m w = Done w'
    /\ (isSet w (flagKey A "ALARM_METER_DEVICE") = true ->
        isSet w (flagKey A "POWER_BACKUP_MODE") = true ->
        power_pln_count 0 A (emitted w w') = 1%nat
        /\ power_pln_total A (emitted w w') = 1%nat
        /\ eventState w' !! flagKey A (clear_name k) = None
        /\ isSet w' (flagKey A "POWER_RESTORE_MODE") = false
        /\ isSet w' (flagKey A "CLEAR_ALARM_METER_DEVICE") = false
        /\ forall key, key <> flagKey A "POWER_RESTORE_MODE" ->
                       key <> flagKey A "CLEAR_ALARM_METER_DEVICE" ->
                       eventState w' !! key = eventState w !! key)
    /\ (isSet w (flagKey A "POWER_BACKUP_MODE") = false ->
        power_pln_total A (emitted w w') = 0%nat)
    /\ (k = Restore ->
        isSet w (flagKey A "ALARM_METER_DEVICE")
        && isSet w (flagKey A "POWER_BACKUP_MODE") = false ->
        power_pln_total A (emitted w w') = 0%nat
        /\ eventState w'
           = <[flagKey A "POWER_RESTORE_MODE" := true]> (eventState w)).
Proof.
  intros Hm.
  destruct k; cbn [clear_name]; (eexists; split; [reflexivity|]).
  - rewrite (restore_step E A m ts w Hm). split; [|split].
    + intros -> ->. cbn [andb]. rewrite emitted_from.
      rewrite power_pln_count_app, power_pln_total_app, count_primitive,
        total_primitive, count_powerPln, total_powerPln by reflexivity.
      split; [done|]. split; [done|]. cbn [eventState].
      split; [by rewrite lookup_delete_eq|].
      split; [unfold isSet; cbn [eventState]; by rewrite lookup_delete_eq|].
      split.
      * unfold isSet at 1; cbn [eventState].
        rewrite lookup_delete_ne by key_ne.
        destruct (isSet w (flagKey A "CLEAR_ALARM_METER_DEVICE")) eqn:Hc.
        -- by rewrite lookup_delete_eq.
        -- rewrite lookup_insert_ne by key_ne. exact Hc.
      * intros key Hr Hc.
        rewrite lookup_delete_ne by done.
        destruct (isSet w (flagKey A "CLEAR_ALARM_METER_DEVICE"));
          rewrite ?lookup_delete_ne, lookup_insert_ne by done; done.
    + intros ->. rewrite andb_false_r, emitted_from.
      by apply total_primitive.
    + intros _ ->. rewrite emitted_from.
      split; [by apply total_primitive|reflexivity].
  - rewrite (clear_step E A m ts w Hm). split; [|split].
    + intros Ha ->. rewrite emitted_from.
      rewrite power_pln_count_app, power_pln_total_app, count_primitive,
        total_primitive, count_powerPln, total_powerPln by reflexivity.
      split; [done|]. split; [done|]. cbn [eventState].
      split.
      { destruct (isSet w (flagKey A "POWER_RESTORE_MODE"));
          rewrite ?lookup_delete_ne by key_ne; by rewrite lookup_delete_eq. }
      split.
      { unfold isSet at 1; cbn [eventState].
        destruct (isSet w (flagKey A "POWER_RESTORE_MODE")) eqn:Hr.
        - by rewrite lookup_delete_eq.
        - rewrite lookup_delete_ne, !lookup_insert_ne by key_ne. exact Hr. }
      split.
      { unfold isSet at 1; cbn [eventState].
        destruct (isSet w (flagKey A "POWER_RESTORE_MODE"));
          rewrite ?lookup_delete_ne by key_ne; by rewrite lookup_delete_eq. }
      intros key Hr Hc.
      assert (Hak : <[flagKey A "ALARM_METER_DEVICE" := true]> (eventState w)
                    !! key = eventState w !! key).
      { destruct (decide (flagKey A "ALARM_METER_DEVICE" = key)) as [<-|Hn].
        - rewrite lookup_insert_eq. unfold isSet in Ha.
          destruct (eventState w !! _) as [[]|]; done.
        - by rewrite lookup_insert_ne. }
      destruct (isSet w (flagKey A "POWER_RESTORE_MODE"));
        rewrite ?lookup_delete_ne, lookup_insert_ne by done; done.
    + intros ->. rewrite emitted_from. by apply total_primitive.
    + discriminate.
Qed.

(** C5, amended.  After Scenario 1, POWER_RESTORE_MODE(A) emits exactly
    one POWER_PLN record of value 0, and a CLEAR_ALARM_METER_DEVICE(A) that
    follows with no new backup or alarm event emits exactly one more: the
    conjunction flags are still set and the event sets the flag that the
    disjunction then reads. *)
Theorem C5_clear_after_restore (A m1 m2 m3 m4 : string) (t1 t2 t3 t4 : Z)
    (w0 : world F) :
  eventState w0 = ∅ ->
  decodeTimestamp E m1 = Some t1 -> decodeTimestamp E m2 = Some t2 ->
  decodeTimestamp E m3 = Some t3 -> decodeTimestamp E m4 = Some t4 ->
  exists w1 w2 w3 w4,
    dispatch E "POWER_BACKUP_MODE" A m1 w0 = Done w1
    /\ dispatch E "ALARM_METER_DEVICE" A m2 w1 = Done w2
    /\ dispatch E "POWER_RESTORE_MODE" A m3 w2 = Done w3
    /\ dispatch E "CLEAR_ALARM_METER_DEVICE" A m4 w3 = Done w4
    /\ power_pln_count 0 A (emitted w2 w3) = 1%nat
    /\ power_pln_total A (emitted w2 w3) = 1%nat
    /\ power_pln_count 0 A (emitted w3 w4) = 1%nat
    /\ power_pln_total A (emitted w3 w4) = 1%nat.
Proof.
  intros Hes H1 H2 H3 H4.
  eexists _, _, _, _. do 4 (split; [reflexivity|]).
  rewrite (backup_step E A m1 t1 w0 H1), (alarm_step E A m2 t2 _ H2), Hes.
  match goal with
  | |- context [handlePowerRestoreModeEvent E A m3 _ ?w] =>
      set (w2 := w);
      assert (Ha : isSet w2 (flagKey A "ALARM_METER_DEVICE") = true)
        by (subst w2; flags; done);
      assert (Hb : isSet w2 (flagKey A "POWER_BACKUP_MODE") = true)
        by (subst w2; flags; done);
      assert (Hc : isSet w2 (flagKey A "CLEAR_ALARM_METER_DEVICE") = false)
        by (subst w2; flags; done)
  end.
  rewrite (restore_step E A m3 t3 w2 H3), Ha, Hb, Hc. cbn [andb].
  match goal with
  | |- context [handleClearAlarmMeterDeviceEvent E A m4 _ ?w] =>
      set (w3 := w);
      assert (Hb3 : isSet w3 (flagKey A "POWER_BACKUP_MODE") = true)
        by (subst w3 w2; flags; done)
  end.
  rewrite (clear_step E A m4 t4 w3 H4), Hb3.
  subst w3. rewrite !emitted_from.
  rewrite !power_pln_count_app, !power_pln_total_app, !count_primitive,
    !total_primitive, !count_powerPln, !total_powerPln by reflexivity.
  done.
Qed.

(** C8.  When the decoding of the payload fails (the text is not JSON, the
    timestamp is missing or not a string, or it does not parse as a number)
    each of the four correlation handlers returns the world it was given:
    no key of the state store is added, removed or modified, and nothing is
    emitted. *)
Theorem C8_decode_failure_atomic (k : corr_event) (A m : string)
    (w : world F) :
  decode_failure E m ->
  dispatch E (corr_name k) A m w = Done w.
Proof.
  intros Hf. apply decode_failure_None in Hf.
  destruct k; cbn [corr_name].
  - change (Done (handlePowerBackupModeEvent E A m "POWER_BACKUP_MODE" w)
            = Done w).
    unfold handlePowerBackupModeEvent. by rewrite emitWith_undecoded.
  - change (Done (handlePowerRestoreModeEvent E A m "POWER_RESTORE_MODE" w)
            = Done w).
    unfold handlePowerRestoreModeEvent. by rewrite emitWith_undecoded.
  - change (Done (handleAlarmMeterDeviceEvent E A m "ALARM_METER_DEVICE" w)
            = Done w).
    unfold handleAlarmMeterDeviceEvent. by rewrite emitWith_undecoded.
  - change (Done (handleClearAlarmMeterDeviceEvent E A m
                    "CLEAR_ALARM_METER_DEVICE" w) = Done w).
    unfold handleClearAlarmMeterDeviceEvent. by rewrite emitWith_undecoded.
Qed.

(** *** Senders that share no key *)

(** A delivery for [A] leaves the four keys of another sender [B] as they
    were, unless one of the two names is the other followed by [_CLEAR]. *)
Lemma dispatch_isolated (event A B m : string) (w w' : world F) :
  A <> B -> A <> B +:+ "_CLEAR" -> B <> A +:+ "_CLEAR" ->
  dispatch E event A m w = Done w' ->
  forall key, own B key -> eventState w' !! key = eventState w !! key.
Proof.
  intros Hne Hab Hba Hd key [g [Hg ->]].
  apply (dispatch_confined E A event m w w' _ Hd).
  intros [f [Hf Hk]]. symmetry in Hk.
  destruct (flagKey_collision A B f g Hf Hg Hk)
    as [[? _]|[[? _]|[? _]]]; contradiction.
Qed.

(** *** Malformed payloads *)

(** The type assertion on ["message"] fails on every payload that decodes
    and whose ["message"] field is absent or not a string. *)
Lemma handleSetTemperatureEvents_panics (A m : string) (ts : Z)
    (msgData : gmap string (JSON F)) (w : world F) :
  json_Unmarshal E m = Some msgData ->
  parseTimestamp E msgData = Some ts ->
  (forall s, msgData !! "message" <> Some (JString s)) ->
  handleSetTemperatureEvents E A m w = Panic.
Proof.
  intros Hu Hp Hn. unfold handleSetTemperatureEvents. rewrite Hu, Hp.
  destruct (msgData !! "message") as [[| | |s| |]|]; try done.
  by destruct (Hn s).
Qed.

(** No other handler panics. *)
Lemma dispatch_returns (event A m : string) (w : world F) :
  event <> "SET_TEMPERATURE" -> exists w', dispatch E event A m w = Done w'.
Proof.
  intros Hn. unfold dispatch.
  repeat match goal with
         | |- context [String.eqb event ?name] =>
             destruct (String.eqb_spec event name) as [->|?]
         end; try (eexists; reflexivity).
  done.
Qed.

(** A payload that is not JSON, or whose timestamp is missing, not a
    string or not a number, is dropped by every handler that decodes the
    timestamp, the one of SET_TEMPERATURE included. *)
Lemma dispatch_drops_undecodable (event A m : string) (w : world F) :
  decode_failure E m -> event <> "GEOLOCATION" ->
  dispatch E event A m w = Done w.
Proof.
  intros Hf Hg. apply decode_failure_None in Hf. unfold dispatch.
  repeat match goal with
         | |- context [String.eqb event ?name] =>
             destruct (String.eqb_spec event name) as [->|?]
         end; try done;
    unfold handleAlarmMeterDeviceTemperEvent,
      handleClearAlarmMeterDeviceTemperEvent, handlePowerBackupModeEvent,
      handlePowerRestoreModeEvent, handleStatusModemOn,
      handleStatusModemOff, handleAlarmTemperatureEvent,
      handleClearAlarmTemperatureEvent, handleAlarmMeterDeviceEvent,
      handleClearAlarmMeterDeviceEvent, forwardEvent;
    rewrite ?emitWith_undecoded by done; try done.
  - revert Hf. unfold decodeTimestamp, handleTemperatureEvent.
    destruct (json_Unmarshal E m) as [d|]; [|done].
    intros ->. by destruct (d !! "message").
  - revert Hf. unfold decodeTimestamp, handleSetTemperatureEvents.
    destruct (json_Unmarshal E m) as [d|]; [|done].
    by intros ->.
Qed.

(** The callback drops a payload that is not JSON. *)
Lemma onMessage_drops_non_json (topic payload : string) (w : world F) :
  json_Unmarshal E payload = None -> onMessage E topic payload w = Done w.
Proof. intros H. unfold onMessage. by rewrite H. Qed.

(** C9, amended.  For a delivery of any event but GEOLOCATION whose
    payload decodes and whose timestamp is a string that parses as a
    number, every record that the delivery emits carries this time: the
    parsed value converted to [int64] and, when the string is exactly 10
    characters long, multiplied by 1000 in [int64] arithmetic; for the
    events that need only the timestamp, such a record is emitted.  The
    record of the geolocation handler carries no time. *)
Theorem C9_timestamp_scaling (event A m timestampStr : string)
    (msgData : gmap string (JSON F)) (f : F) (w w' : world F) :
  json_Unmarshal E m = Some msgData ->
  msgData !! "timestamp" = Some (JString timestampStr) ->
  ParseFloat E timestampStr = Some f ->
  event <> "GEOLOCATION" ->
  dispatch E event A m w = Done w' ->
  let time := if (String.length timestampStr =? 10)%nat
              then wrap64 (int64_of_float64 E f * 1000)
              else int64_of_float64 E f in
  exists l,
    sink w' = sink w ++ l
    /\ Forall (fun c => call_time c = Some time) l
    /\ (timestamp_only event = true -> hd_error l = Some (DbInsert A m time)).
Proof.
  intros Hu Hs Hp Hg Hd time.
  apply (dispatch_stamped E time event A m w w'); [|done|done].
  unfold decodeTimestamp, parseTimestamp. by rewrite Hu, Hs, Hp.
Qed.

End Properties.

(** The two deliveries of Scenario 1 on the sample environment. *)
Lemma C3_scenario1_witness :
  exists w1 w2,
    dispatch Sample.env "POWER_BACKUP_MODE" "A"
             (Sample.payload "POWER_BACKUP_MODE") Sample.empty = Done w1
    /\ dispatch Sample.env "ALARM_METER_DEVICE" "A"
                (Sample.payload "ALARM_METER_DEVICE") w1 = Done w2
    /\ emitted Sample.empty w1
       = emit Sample.env
           (primitive Sample.env "POWER_BACKUP_MODE" "power_modem_" 1 "A"
                      (Sample.payload "POWER_BACKUP_MODE") 1700000000000)
    /\ power_pln_total "A" (emitted Sample.empty w1) = 0%nat
    /\ emitted w1 w2
       = emit Sample.env
           (primitive Sample.env "ALARM_METER_DEVICE"
                      "alarm_connection_missing_" 1 "A"
                      (Sample.payload "ALARM_METER_DEVICE") 1700000000000)
         ++ emit Sample.env
              (powerPln Sample.env 1 "A"
                        (Sample.payload "ALARM_METER_DEVICE") 1700000000000)
    /\ power_pln_count 1 "A" (emitted w1 w2) = 1%nat
    /\ power_pln_total "A" (emitted w1 w2) = 1%nat.
Proof.
  apply (C3_scenario1 Sample.env "A" _ _ 1700000000000 1700000000000
                      Sample.empty); vm_compute; reflexivity.
Defined.

(** Scenario 2 on the sample environment: ALARM_METER_DEVICE(A),
    POWER_BACKUP_MODE(A) and its duplicate with no clearing event between
    them.  The program emits two POWER_PLN records of value 1, not at most
    one. *)
Lemma C1_double_fire :
  exists w',
    run Sample.env
      [("ALARM_METER_DEVICE", "A", Sample.payload "ALARM_METER_DEVICE");
       ("POWER_BACKUP_MODE", "A", Sample.payload "POWER_BACKUP_MODE");
       ("POWER_BACKUP_MODE", "A", Sample.payload "POWER_BACKUP_MODE")]
      Sample.empty = Done w'
    /\ power_pln_count 1 "A" (emitted Sample.empty w') = 2%nat
    /\ ~ (power_pln_count 1 "A" (emitted Sample.empty w') <= 1)%nat.
Proof.
  eexists. split; [vm_compute; reflexivity|].
  split; [vm_compute; reflexivity|]. vm_compute. lia.
Qed.

Lemma C1_level_triggered_witness :
  exists w',
    run Sample.env
      (deliveries conj_name "A"
         [(Alarm, Sample.payload "ALARM_METER_DEVICE");
          (Backup, Sample.payload "POWER_BACKUP_MODE");
          (Backup, Sample.payload "POWER_BACKUP_MODE")])
      Sample.empty = Done w'
    /\ power_pln_count 1 "A" (emitted Sample.empty w')
       = level_fires (isSet Sample.empty (flagKey "A" "POWER_BACKUP_MODE"))
                     (isSet Sample.empty (flagKey "A" "ALARM_METER_DEVICE"))
                     [Alarm; Backup; Backup]
    /\ (isSet Sample.empty (flagKey "A" "POWER_BACKUP_MODE") = true ->
        isSet Sample.empty (flagKey "A" "ALARM_METER_DEVICE") = true ->
        power_pln_count 1 "A" (emitted Sample.empty w') = 3%nat).
Proof.
  apply (C1_level_triggered Sample.env "A"
           [(Alarm, Sample.payload "ALARM_METER_DEVICE");
            (Backup, Sample.payload "POWER_BACKUP_MODE");
            (Backup, Sample.payload "POWER_BACKUP_MODE")] Sample.empty).
  repeat constructor; vm_compute; eexists; reflexivity.
Defined.

(** On the sample environment, in an empty store, POWER_RESTORE_MODE(A)
    sets its one-shot flag and emits no POWER_PLN record: the emission is
    conditioned on the two conjunction flags. *)
Lemma C2_restore_without_emission :
  exists w',
    dispatch Sample.env "POWER_RESTORE_MODE" "A"
             (Sample.payload "POWER_RESTORE_MODE") Sample.empty = Done w'
    /\ eventState Sample.empty !! flagKey "A" "POWER_RESTORE_MODE" = None
    /\ eventState w' !! flagKey "A" "POWER_RESTORE_MODE" = Some true
    /\ power_pln_count 0 "A" (emitted Sample.empty w') = 0%nat.
Proof.
  eexists. split; [vm_compute; reflexivity|].
  repeat split; vm_compute; reflexivity.
Qed.

Lemma C2_disjunction_gated_witness :
  exists w',
    dispatch Sample.env "POWER_RESTORE_MODE" "A"
             (Sample.payload "POWER_RESTORE_MODE") both_set = Done w'
    /\ power_pln_count 0 "A" (emitted both_set w') = 1%nat
    /\ eventState w' !! flagKey "A" "POWER_RESTORE_MODE" = None.
Proof.
  destruct (C2_disjunction_gated Sample.env "A"
              (Sample.payload "POWER_RESTORE_MODE") 1700000000000 Restore
              both_set) as [w' [Hd [Hb _]]]; [vm_compute; reflexivity|].
  exists w'. split; [exact Hd|].
  destruct Hb as [Hc [_ [Hk _]]]; [vm_compute; reflexivity ..|].
  split; [exact Hc|exact Hk].
Defined.

(** C4.  On the sample environment, in an empty store, the handler of
    CLEAR_ALARM_METER_DEVICE(A) sets the ALARM_METER_DEVICE flag of A, does
    not set its CLEAR_ALARM_METER_DEVICE flag, and emits no POWER_PLN
    record. *)
Lemma C4_clear_sets_alarm_flag :
  exists w',
    dispatch Sample.env "CLEAR_ALARM_METER_DEVICE" "A"
             (Sample.payload "CLEAR_ALARM_METER_DEVICE") Sample.empty = Done w'
    /\ eventState w' !! flagKey "A" "ALARM_METER_DEVICE" = Some true
    /\ eventState w' !! flagKey "A" "CLEAR_ALARM_METER_DEVICE" = None
    /\ power_pln_total "A" (emitted Sample.empty w') = 0%nat.
Proof.
  eexists. split; [vm_compute; reflexivity|].
  repeat split; vm_compute; reflexivity.
Qed.

(** The deliveries of Scenario 3 on the sample environment: the
    CLEAR_ALARM_METER_DEVICE(A) that follows POWER_RESTORE_MODE(A) emits a
    second POWER_PLN record of value 0. *)
Lemma C5_second_clear_emits :
  exists w3 w4,
    run Sample.env
      [("POWER_BACKUP_MODE", "A", Sample.payload "POWER_BACKUP_MODE");
       ("ALARM_METER_DEVICE", "A", Sample.payload "ALARM_METER_DEVICE");
       ("POWER_RESTORE_MODE", "A", Sample.payload "POWER_RESTORE_MODE")]
      Sample.empty = Done w3
    /\ dispatch Sample.env "CLEAR_ALARM_METER_DEVICE" "A"
                (Sample.payload "CLEAR_ALARM_METER_DEVICE") w3 = Done w4
    /\ power_pln_count 0 "A" (emitted Sample.empty w3) = 1%nat
    /\ power_pln_total "A" (emitted w3 w4) = 1%nat
    /\ power_pln_total "A" (emitted w3 w4) <> 0%nat.
Proof.
  eexists _, _. split; [vm_compute; reflexivity|].
  split; [vm_compute; reflexivity|].
  repeat split; vm_compute; congruence.
Qed.

Lemma C5_clear_after_restore_witness :
  exists w1 w2 w3 w4,
    dispatch Sample.env "POWER_BACKUP_MODE" "A"
             (Sample.payload "POWER_BACKUP_MODE") Sample.empty = Done w1
    /\ dispatch Sample.env "ALARM_METER_DEVICE" "A"
                (Sample.payload "ALARM_METER_DEVICE") w1 = Done w2
    /\ dispatch Sample.env "POWER_RESTORE_MODE" "A"
                (Sample.payload "POWER_RESTORE_MODE") w2 = Done w3
    /\ dispatch Sample.env "CLEAR_ALARM_METER_DEVICE" "A"
                (Sample.payload "CLEAR_ALARM_METER_DEVICE") w3 = Done w4
    /\ power_pln_count 0 "A" (emitted w2 w3) = 1%nat
    /\ power_pln_total "A" (emitted w2 w3) = 1%nat
    /\ power_pln_count 0 "A" (emitted w3 w4) = 1%nat
    /\ power_pln_total "A" (emitted w3 w4) = 1%nat.
Proof.
  apply (C5_clear_after_restore Sample.env "A" _ _ _ _
           1700000000000 1700000000000 1700000000000 1700000000000
           Sample.empty); vm_compute; reflexivity.
Defined.

(** Two payloads that do not decode: a text that is not JSON, and an object
    without timestamp. *)
Lemma C8_decode_failure_atomic_witness :
  dispatch Sample.env "POWER_BACKUP_MODE" "A" "not json" both_set
  = Done both_set
  /\ dispatch Sample.env "CLEAR_ALARM_METER_DEVICE" "A"
       (Sample.object [("event", "CLEAR_ALARM_METER_DEVICE")]) both_set
     = Done both_set.
Proof.
  split.
  - apply (C8_decode_failure_atomic Sample.env PowerBackupMode "A"
             "not json" both_set).
    apply unmarshal_error. vm_compute. reflexivity.
  - apply (C8_decode_failure_atomic Sample.env ClearAlarmMeterDevice "A"
             (Sample.object [("event", "CLEAR_ALARM_METER_DEVICE")]) both_set).
    apply (timestamp_not_string Sample.env _
             {[ "event" := JString "CLEAR_ALARM_METER_DEVICE" ]}).
    + vm_compute. reflexivity.
    + intros s. vm_compute. discriminate.
Defined.

(** C6.  The senders [x] and [x_CLEAR] are distinct, and the key of the
    ALARM_METER_DEVICE flag of [x_CLEAR] is the key of the
    CLEAR_ALARM_METER_DEVICE flag of [x].  On the sample environment,
    ALARM_METER_DEVICE(x_CLEAR) then POWER_BACKUP_MODE(x_CLEAR) emit one
    POWER_PLN record of value 1 for [x_CLEAR]; with three deliveries of [x]
    between them, the last of which consumes that key, they emit none. *)
Lemma C6_senders_interfere :
  "x" <> "x_CLEAR"
  /\ flagKey "x_CLEAR" "ALARM_METER_DEVICE"
     = flagKey "x" "CLEAR_ALARM_METER_DEVICE"
  /\ exists w w',
       run Sample.env
         [("ALARM_METER_DEVICE", "x_CLEAR", Sample.payload "ALARM_METER_DEVICE");
          ("POWER_BACKUP_MODE", "x_CLEAR", Sample.payload "POWER_BACKUP_MODE")]
         Sample.empty = Done w
       /\ run Sample.env
            [("ALARM_METER_DEVICE", "x_CLEAR",
              Sample.payload "ALARM_METER_DEVICE");
             ("POWER_BACKUP_MODE", "x", Sample.payload "POWER_BACKUP_MODE");
             ("ALARM_METER_DEVICE", "x", Sample.payload "ALARM_METER_DEVICE");
             ("POWER_RESTORE_MODE", "x", Sample.payload "POWER_RESTORE_MODE");
             ("POWER_BACKUP_MODE", "x_CLEAR",
              Sample.payload "POWER_BACKUP_MODE")]
            Sample.empty = Done w'
       /\ power_pln_count 1 "x_CLEAR" (sink w) = 1%nat
       /\ power_pln_count 1 "x_CLEAR" (sink w') = 0%nat.
Proof.
  split; [discriminate|]. split; [reflexivity|].
  eexists _, _. split; [vm_compute; reflexivity|].
  split; [vm_compute; reflexivity|].
  split; vm_compute; reflexivity.
Qed.

(** C10.  On the sample environment, once both conjunction flags of
    [x_CLEAR] are set, the deliveries POWER_BACKUP_MODE(x),
    ALARM_METER_DEVICE(x), POWER_RESTORE_MODE(x) remove the
    ALARM_METER_DEVICE key of [x_CLEAR] from the store. *)
Lemma C10_conjunction_flag_removed :
  exists w w',
    run Sample.env
      [("ALARM_METER_DEVICE", "x_CLEAR", Sample.payload "ALARM_METER_DEVICE");
       ("POWER_BACKUP_MODE", "x_CLEAR", Sample.payload "POWER_BACKUP_MODE")]
      Sample.empty = Done w
    /\ eventState w !! flagKey "x_CLEAR" "ALARM_METER_DEVICE" = Some true
    /\ eventState w !! flagKey "x_CLEAR" "POWER_BACKUP_MODE" = Some true
    /\ run Sample.env
         [("POWER_BACKUP_MODE", "x", Sample.payload "POWER_BACKUP_MODE");
          ("ALARM_METER_DEVICE", "x", Sample.payload "ALARM_METER_DEVICE");
          ("POWER_RESTORE_MODE", "x", Sample.payload "POWER_RESTORE_MODE")]
         w = Done w'
    /\ eventState w' !! flagKey "x_CLEAR" "ALARM_METER_DEVICE" = None.
Proof.
  eexists _, _. split; [vm_compute; reflexivity|].
  split; [vm_compute; reflexivity|]. split; [vm_compute; reflexivity|].
  split; vm_compute; reflexivity.
Qed.

(** C7.  On the sample environment, the callback panics on a
    SET_TEMPERATURE delivery whose payload is a JSON object with a
    timestamp and no ["message"] field. *)
Lemma C7_set_temperature_panics :
  onMessage Sample.env "modem/event/A"
    (Sample.object [("event", "SET_TEMPERATURE"); ("timestamp", "1700000000")])
    Sample.empty = Panic
  /\ handleSetTemperatureEvents Sample.env "A"
       (Sample.object [("event", "SET_TEMPERATURE");
                       ("timestamp", "1700000000")])
       Sample.empty = Panic.
Proof. split; vm_compute; reflexivity. Qed.

(** A GEOLOCATION delivery on the sample environment: the payload decodes,
    its timestamp is the 10-character string 1700000000, and the datapoint
    that the delivery publishes carries the time 0. *)
Lemma C9_geolocation_time :
  let m := Sample.object [("event", "GEOLOCATION");
                          ("message", "[510,10,1A2B,3C4D]");
                          ("timestamp", "1700000000")] in
  exists w' d,
    dispatch Sample.env "GEOLOCATION" "A" m Sample.empty = Done w'
    /\ decodeTimestamp Sample.env m = Some (1700000000 * 1000)
    /\ In (Publish d) (emitted Sample.empty w')
    /\ dp_event d = "GEOLOCATION"
    /\ dp_time d = 0
    /\ dp_time d <> 1700000000 * 1000.
Proof.
  simpl. eexists _, _. split; [vm_compute; reflexivity|].
  split; [vm_compute; reflexivity|].
  split; [vm_compute; left; reflexivity|].
  repeat split; vm_compute; congruence.
Qed.

Lemma C9_timestamp_scaling_witness :
  let w' := handlePowerBackupModeEvent Sample.env "A"
              (Sample.payload "POWER_BACKUP_MODE") "POWER_BACKUP_MODE"
              both_set in
  let time := if (String.length "1700000000" =? 10)%nat
              then wrap64 (1700000000 * 1000) else 1700000000 in
  exists l,
    sink w' = sink both_set ++ l
    /\ Forall (fun c => call_time c = Some time) l
    /\ (timestamp_only "POWER_BACKUP_MODE" = true ->
        hd_error l
        = Some (DbInsert "A" (Sample.payload "POWER_BACKUP_MODE") time)).
Proof.
  apply (C9_timestamp_scaling Sample.env "POWER_BACKUP_MODE" "A"
           (Sample.payload "POWER_BACKUP_MODE") "1700000000"
           (<["timestamp" := JString "1700000000"]>
              (<["event" := JString "POWER_BACKUP_MODE"]> ∅))
           1700000000 both_set).
  - vm_compute. reflexivity.
  - vm_compute. reflexivity.
  - vm_compute. reflexivity.
  - discriminate.
  - reflexivity.
Defined.

(** * Further properties *)

(** ** The records of one delivery *)

Section Records.

Variable E : Env.

Local Abbreviation F := (float64 E).

Lemma handleClearPowerPlnEvent_shape (senderID message event : string)
    (w : world F) :
  sink (handleClearPowerPlnEvent E senderID message event w) = sink w
  \/ exists ts,
       decodeTimestamp E message = Some ts /\ polarity 0 event
       /\ sink (handleClearPowerPlnEvent E senderID message event w)
          = sink w ++ emit E (powerPln E 0 senderID message ts).
Proof.
  unfold handleClearPowerPlnEvent, decodeTimestamp.
  destruct (json_Unmarshal E message) as [d|]; [|by left].
  destruct (parseTimestamp E d) as [ts|]; [|by left]. cbv zeta.
  destruct (String.eqb_spec event "POWER_RESTORE_MODE") as [->|_];
    [|destruct (String.eqb_spec event "CLEAR_ALARM_METER_DEVICE") as [->|_];
      [|by left]];
    rewrite sink_emit; repeat case_match; cbn [Delete Store sink];
    first [ by left
          | right; exists ts; split; [done|]; split; [|done];
            right; split; [done|]; first [by left | by right] ].
Qed.

Lemma handlePowerPln_shape (senderID message event : string) (w : world F) :
  sink (handlePowerPln E senderID message event w) = sink w
  \/ exists v ts,
       decodeTimestamp E message = Some ts /\ polarity v event
       /\ sink (handlePowerPln E senderID message event w)
          = sink w ++ emit E (powerPln E v senderID message ts).
Proof.
  pose proof (handleClearPowerPlnEvent_shape senderID message event w) as Hc.
  revert Hc. unfold handlePowerPln, decodeTimestamp.
  destruct (json_Unmarshal E message) as [d|]; [|by left].
  destruct (parseTimestamp E d) as [ts|]; [|by left]. cbv zeta.
  destruct (String.eqb_spec event "POWER_BACKUP_MODE") as [->|_]; cbn [orb].
  { intros _. rewrite sink_emit. repeat case_match; cbn [Store sink];
      first [ by left
            | right; exists 1, ts; split; [done|]; split; [|done];
              left; split; [done|by left] ]. }
  destruct (String.eqb_spec event "ALARM_METER_DEVICE") as [->|_]; cbn [orb].
  { intros _. rewrite sink_emit. repeat case_match; cbn [Store sink];
      first [ by left
            | right; exists 1, ts; split; [done|]; split; [|done];
              left; split; [done|by right] ]. }
  destruct (_ || _); [|by left].
  intros [H|[ts' [Hd [Hp Hs]]]]; [by left|]. right. by exists 0, ts'.
Qed.

Lemma checkCombinedConditions_shape (senderID message event : string)
    (w : world F) :
  sink (checkCombinedConditions E senderID message event w) = sink w
  \/ exists v ts,
       decodeTimestamp E message = Some ts /\ polarity v event
       /\ sink (checkCombinedConditions E senderID message event w)
          = sink w ++ emit E (powerPln E v senderID message ts).
Proof.
  rewrite checkCombinedConditions_gate.
  destruct (_ && _); [apply handlePowerPln_shape|by left].
Qed.

(** The calls of a handler built on [emitWith]. *)
Lemma emitWith_shape (A message event : string) (mk : Z -> EventMessage F)
    (after : world F -> world F) (w : world F) :
  (forall w1,
     sink (after w1) = sink w1
     \/ exists v ts,
          decodeTimestamp E message = Some ts /\ polarity v event
          /\ sink (after w1)
             = sink w1 ++ emit E (powerPln E v A message ts)) ->
  sink (emitWith E message mk after w) = sink w
  \/ exists ts,
       decodeTimestamp E message = Some ts
       /\ (sink (emitWith E message mk after w) = sink w ++ emit E (mk ts)
           \/ exists v,
                polarity v event
                /\ sink (emitWith E message mk after w)
                   = sink w ++ emit E (mk ts)
                     ++ emit E (powerPln E v A message ts)).
Proof.
  intros Hafter. unfold emitWith.
  destruct (decodeTimestamp E message) as [ts|] eqn:Hd;
    revert Hd; unfold decodeTimestamp;
    destruct (json_Unmarshal E message) as [d|]; try discriminate;
    try (by left); intros Hd; rewrite Hd; [|by left]. cbv zeta.
  destruct (isZeroEventMessage E (mk ts)); [by left|]. cbn [negb].
  right. exists ts. split; [done|]. rewrite sink_emit.
  destruct (Hafter (mkWorld (eventState w) (sink w ++ emit E (mk ts))))
    as [H|[v [ts' [Hd' [Hp Hs]]]]].
  - left. exact H.
  - right. exists v. split; [done|]. rewrite Hs. cbn [sink].
    rewrite <- app_assoc.
    assert (ts' = ts) as -> by (revert Hd'; unfold decodeTimestamp;
      destruct (json_Unmarshal E message); congruence).
    reflexivity.
Qed.

Lemma handleGeolocationEvent_shape (messageStr A event : string)
    (w : world F) :
  eventState (handleGeolocationEvent E messageStr A event w) = eventState w
  /\ (sink (handleGeolocationEvent E messageStr A event w) = sink w
      \/ exists locationData body,
           sink (handleGeolocationEvent E messageStr A event w)
           = sink w
             ++ [Publish (mkDatapoint event ("geolocation_" +:+ A)
                                      (VMap locationData) 0 A);
                 DbInsertGeo A body]).
Proof.
  unfold handleGeolocationEvent.
  repeat case_match; (split; [reflexivity|]); try (by left).
  right. eexists _, _.
  unfold sendDataPoint, call; cbn [sink]. by rewrite <- app_assoc.
Qed.

Ltac shape_of_emitWith A event :=
  match goal with
  | |- context [emitWith E ?m ?mk ?after ?w] =>
      let H := fresh "H" in
      assert (H := emitWith_shape A m event mk after w);
      destruct H as [H|[ts [Hd [H|[v [Hp H]]]]]];
      [ intros w1;
        first [ by left
              | cbv beta;
                match goal with
                | |- context [checkCombinedConditions E ?s ?m0 ?e ?w0] =>
                    exact (checkCombinedConditions_shape s m0 e w0)
                end ]
      | by left
      | right; exists ts, (mk ts); split; [exact Hd|]; split; [discriminate|];
        split; [repeat split; reflexivity|]; left; exact H
      | right; exists ts, (mk ts); split; [exact Hd|]; split; [discriminate|];
        split; [repeat split; reflexivity|];
        right; exists v; by split ]
  end.

(** The calls of one delivery: none; or the insertion and the publication
    of the record of the event; or those, followed by the insertion and the
    publication of one POWER_PLN record whose value goes with the event. *)
Lemma dispatch_shape (event A m : string) (w w' : world F) :
  event <> "GEOLOCATION" ->
  dispatch E event A m w = Done w' ->
  sink w' = sink w
  \/ exists ts prim,
       decodeTimestamp E m = Some ts /\ event <> "POWER_PLN"
       /\ is_own_record event A m ts prim
       /\ (sink w' = sink w ++ emit E prim
           \/ exists v,
                polarity v event
                /\ sink w' = sink w ++ emit E prim
                             ++ emit E (powerPln E v A m ts)).
Proof.
  intros Hg. unfold dispatch.
  repeat match goal with
         | |- (if String.eqb event ?name then _ else _) = _ -> _ =>
             destruct (String.eqb_spec event name) as [->|?]
         end;
    try (intros [= <-];
         unfold handleAlarmMeterDeviceTemperEvent,
           handleClearAlarmMeterDeviceTemperEvent, handlePowerBackupModeEvent,
           handlePowerRestoreModeEvent, handleStatusModemOn,
           handleStatusModemOff, handleAlarmTemperatureEvent,
           handleClearAlarmTemperatureEvent, handleAlarmMeterDeviceEvent,
           handleClearAlarmMeterDeviceEvent, forwardEvent;
         match goal with
         | |- context [emitWith E _ _ _ _] => idtac
         end;
         match goal with
         | |- context [mkEventMessage ?e _ _ _ _ _ _] => shape_of_emitWith A e
         end).
  - intros [= <-]. unfold handleTemperatureEvent, decodeTimestamp.
    destruct (json_Unmarshal E m) as [d|]; [|by left].
    destruct (d !! "message") as [msg|]; [|by left].
    destruct (parseTimestamp E d) as [ts|]; [|by left]. cbv zeta.
    destruct (isZeroEventMessage E _); [by left|]. cbn [negb].
    rewrite sink_emit. right. eexists ts, _. split; [done|].
    split; [discriminate|]. split; [|left; reflexivity].
    repeat split; reflexivity.
  - unfold handleSetTemperatureEvents, decodeTimestamp.
    destruct (json_Unmarshal E m) as [d|]; [|intros [= <-]; by left].
    destruct (parseTimestamp E d) as [ts|]; [|intros [= <-]; by left].
    destruct (d !! "message") as [[| | |text| |]|]; try discriminate.
    cbv zeta. destruct (isZeroEventMessage E _); cbn [negb];
      intros [= <-]; [by left|].
    rewrite sink_emit. right. eexists ts, _. split; [done|].
    split; [discriminate|]. split; [|left; reflexivity].
    repeat split; reflexivity.
  - done.
  - intros [= <-]. by left.
Qed.

(** The same, on what the delivery appends, the geolocation event
    included. *)
Lemma dispatch_emitted (event A m : string) (w w' : world F) :
  dispatch E event A m w = Done w' ->
  emitted w w' = []
  \/ (exists ts prim,
        decodeTimestamp E m = Some ts /\ event <> "POWER_PLN"
        /\ is_own_record event A m ts prim
        /\ (emitted w w' = emit E prim
            \/ exists v,
                 polarity v event
                 /\ emitted w w'
                    = emit E prim ++ emit E (powerPln E v A m ts)))
  \/ (event = "GEOLOCATION"
      /\ exists locationData body,
           emitted w w'
           = [Publish (mkDatapoint event ("geolocation_" +:+ A)
                                   (VMap locationData) 0 A);
              DbInsertGeo A body]).
Proof.
  intros Hd. destruct (String.eqb_spec event "GEOLOCATION") as [->|Hg].
  - injection Hd as <-.
    destruct (handleGeolocationEvent_shape m A "GEOLOCATION" w)
      as [_ [H|[loc [body H]]]].
    + left. apply emitted_app. by rewrite app_nil_r.
    + right. right. split; [done|]. exists loc, body. by apply emitted_app.
  - destruct (dispatch_shape event A m w w' Hg Hd)
      as [H|[ts [prim [Hts [Hn [Ho [H|[v [Hp H]]]]]]]]].
    + left. apply emitted_app. by rewrite app_nil_r.
    + right. left. exists ts, prim. repeat (split; [done|]).
      left. by apply emitted_app.
    + right. left. exists ts, prim. repeat (split; [done|]).
      right. exists v. split; [done|]. by apply emitted_app.
Qed.

Lemma total_own_record (event A B m : string) (ts : Z) (prim : EventMessage F) :
  event <> "POWER_PLN" -> is_own_record event A m ts prim ->
  power_pln_total B (emit E prim) = 0%nat.
Proof.
  intros Hn (_ & _ & _ & _ & Hname).
  unfold power_pln_total, emit; cbn [List.filter is_power_pln_of dp_event].
  assert (String.eqb (EventName prim) "POWER_PLN" = false) as ->; [|done].
  rewrite Hname. destruct (String.eqb event "SET_TEMPERATURE"); [done|].
  by apply String.eqb_neq.
Qed.

Lemma count_le_total (v : Z) (B : string) (l : list (sink_call F)) :
  (power_pln_count v B l <= power_pln_total B l)%nat.
Proof.
  unfold power_pln_count, power_pln_total.
  induction l as [|c l IH]; cbn [List.filter]; [done|].
  destruct (is_power_pln v B c) eqn:Hv, (is_power_pln_of B c) eqn:Ho;
    cbn [length]; try lia.
  unfold is_power_pln in Hv. rewrite Ho in Hv. discriminate.
Qed.

Lemma total_powerPln_other (v : Z) (A B m : string) (ts : Z) :
  B <> A -> power_pln_total B (emit E (powerPln E v A m ts)) = 0%nat.
Proof.
  intros Hn. unfold power_pln_total, emit, powerPln; simpl.
  assert (String.eqb A B = false) as -> by (apply String.eqb_neq; congruence).
  done.
Qed.

(** X1.  One delivery publishes at most one POWER_PLN datapoint, and none
    for a modem other than the sender of the delivery. *)
Theorem delivery_at_most_one_power_pln (event A m : string) (w w' : world F) :
  dispatch E event A m w = Done w' ->
  (power_pln_total A (emitted w w') <= 1)%nat
  /\ forall B, B <> A -> power_pln_total B (emitted w w') = 0%nat.
Proof.
  intros Hd.
  destruct (dispatch_emitted event A m w w' Hd)
    as [->|[(ts & prim & _ & Hn & Ho & [->|(v & _ & ->)])
           |(-> & loc & body & ->)]].
  - split; [unfold power_pln_total; simpl; lia|done].
  - split; [|intros B _]; rewrite (total_own_record _ _ _ _ _ _ Hn Ho);
      [lia|done].
  - split; [|intros B HB]; rewrite power_pln_total_app,
      (total_own_record _ _ _ _ _ _ Hn Ho).
    + rewrite total_powerPln. lia.
    + by rewrite total_powerPln_other.
  - split; [unfold power_pln_total; simpl; lia|done].
Qed.

(** X2.  The value of a POWER_PLN datapoint goes with the event of the
    delivery that publishes it: 1 for POWER_BACKUP_MODE and
    ALARM_METER_DEVICE, 0 for POWER_RESTORE_MODE and
    CLEAR_ALARM_METER_DEVICE; a delivery of any other event publishes no
    POWER_PLN datapoint. *)
Theorem power_pln_value_goes_with_event (event A m : string) (v : Z)
    (w w' : world F) :
  dispatch E event A m w = Done w' ->
  power_pln_count v A (emitted w w') <> 0%nat ->
  polarity v event.
Proof.
  intros Hd.
  destruct (dispatch_emitted event A m w w' Hd)
    as [->|[(ts & prim & _ & Hn & Ho & [->|(v' & Hp & ->)])
           |(-> & loc & body & ->)]]; try done.
  - intros Hc. pose proof (count_le_total v A (emit E prim)) as Hle.
    rewrite (total_own_record _ _ _ _ _ _ Hn Ho) in Hle. lia.
  - rewrite power_pln_count_app. intros Hc.
    pose proof (count_le_total v A (emit E prim)) as Hle.
    rewrite (total_own_record _ _ _ _ _ _ Hn Ho) in Hle.
    rewrite count_powerPln in Hc.
    destruct (Z.eqb_spec v' v) as [<-|]; [exact Hp|lia].
Qed.

(** X3.  Every call that a delivery makes on the database or on the broker
    names the sender of the delivery, and every row that a handler other
    than the geolocation one inserts stores the payload of the delivery as
    it was received. *)
Theorem delivery_attribution (event A m : string) (w w' : world F) :
  dispatch E event A m w = Done w' ->
  Forall (fun c => call_sender c = A
                   /\ forall p, call_payload c = Some p -> p = m)
         (emitted w w').
Proof.
  intros Hd.
  destruct (dispatch_emitted event A m w w' Hd)
    as [->|[(ts & prim & _ & _ & (Hs & Hm & _) & [->|(v' & _ & ->)])
           |(-> & loc & body & ->)]];
    unfold emit, powerPln; cbn [app];
    repeat first [apply List.Forall_nil | apply List.Forall_cons];
    cbn [call_sender call_payload dp_id_modem Sumber Msg]; split;
    first [done | intros; congruence].
Qed.

(** X4.  A datapoint that a delivery publishes is named after the event of
    the delivery or is a POWER_PLN datapoint; the datapoint of
    SET_TEMPERATURE is the exception, its name is empty. *)
Theorem datapoint_names (event A m : string) (w w' : world F) :
  dispatch E event A m w = Done w' ->
  Forall (fun c => forall name, call_event c = Some name ->
                     name = "POWER_PLN"
                     \/ name = if String.eqb event "SET_TEMPERATURE"
                               then "" else event)
         (emitted w w').
Proof.
  intros Hd.
  destruct (dispatch_emitted event A m w w' Hd)
    as [->|[(ts & prim & _ & _ & (_ & _ & _ & _ & Hn) & [->|(v' & _ & ->)])
           |(-> & loc & body & ->)]];
    unfold emit, powerPln; cbn [app];
    repeat first [apply List.Forall_nil | apply List.Forall_cons];
    cbn [call_event dp_event EventName];
    intros name [= <-]; first [by left | by right].
Qed.

Lemma emitWith_forward_state (m : string) (mk : Z -> EventMessage F)
    (w : world F) :
  eventState (emitWith E m mk (fun w0 => w0) w) = eventState w.
Proof. unfold emitWith. by repeat case_match. Qed.

(** X5.  A delivery of an event other than the four of the correlation
    leaves the state store as it was. *)
Theorem other_events_leave_store (event A m : string) (w w' : world F) :
  event <> "POWER_BACKUP_MODE" -> event <> "POWER_RESTORE_MODE" ->
  event <> "ALARM_METER_DEVICE" -> event <> "CLEAR_ALARM_METER_DEVICE" ->
  dispatch E event A m w = Done w' ->
  eventState w' = eventState w.
Proof.
  intros Hb Hr Ha Hc. unfold dispatch.
  repeat match goal with
         | |- (if String.eqb event ?name then _ else _) = _ -> _ =>
             destruct (String.eqb_spec event name) as [->|?]
         end; try done;
    try (intros [= <-];
         unfold handleAlarmMeterDeviceTemperEvent,
           handleClearAlarmMeterDeviceTemperEvent, handleStatusModemOn,
           handleStatusModemOff, handleAlarmTemperatureEvent,
           handleClearAlarmTemperatureEvent, forwardEvent;
         apply emitWith_forward_state).
  - intros [= <-]. unfold handleTemperatureEvent. by repeat case_match.
  - unfold handleSetTemperatureEvents.
    repeat case_match; try done; by intros [= <-].
  - intros [= <-]. apply handleGeolocationEvent_shape.
  - by intros [= <-].
Qed.

End Records.

Lemma delivery_at_most_one_power_pln_witness :
  let w' := handleAlarmMeterDeviceEvent Sample.env "A"
              (Sample.payload "ALARM_METER_DEVICE") "ALARM_METER_DEVICE"
              both_set in
  (power_pln_total "A" (emitted both_set w') <= 1)%nat
  /\ forall B, B <> "A" -> power_pln_total B (emitted both_set w') = 0%nat.
Proof.
  apply (delivery_at_most_one_power_pln Sample.env "ALARM_METER_DEVICE" "A"
           (Sample.payload "ALARM_METER_DEVICE") both_set).
  reflexivity.
Defined.

Lemma power_pln_value_goes_with_event_witness :
  polarity 1 "ALARM_METER_DEVICE".
Proof.
  apply (power_pln_value_goes_with_event Sample.env "ALARM_METER_DEVICE" "A"
           (Sample.payload "ALARM_METER_DEVICE") 1 both_set
           (handleAlarmMeterDeviceEvent Sample.env "A"
              (Sample.payload "ALARM_METER_DEVICE") "ALARM_METER_DEVICE"
              both_set)).
  - reflexivity.
  - vm_compute. discriminate.
Defined.

Lemma delivery_attribution_witness :
  let m := Sample.payload "POWER_RESTORE_MODE" in
  Forall (fun c => call_sender c = "A"
                   /\ forall p, call_payload c = Some p -> p = m)
         (emitted both_set
            (handlePowerRestoreModeEvent Sample.env "A" m
               "POWER_RESTORE_MODE" both_set)).
Proof.
  apply (delivery_attribution Sample.env "POWER_RESTORE_MODE" "A"
           (Sample.payload "POWER_RESTORE_MODE") both_set).
  reflexivity.
Defined.

Lemma datapoint_names_witness :
  let m := Sample.object [("event", "SET_TEMPERATURE");
                          ("message", "set 25 C");
                          ("timestamp", "1700000000")] in
  exists w',
    handleSetTemperatureEvents Sample.env "A" m Sample.empty = Done w'
    /\ Forall (fun c => forall name, call_event c = Some name ->
                          name = "POWER_PLN" \/ name = "")
              (emitted Sample.empty w').
Proof.
  eexists. split; [vm_compute; reflexivity|].
  apply (datapoint_names Sample.env "SET_TEMPERATURE" "A"
           (Sample.object [("event", "SET_TEMPERATURE");
                           ("message", "set 25 C");
                           ("timestamp", "1700000000")]) Sample.empty).
  vm_compute. reflexivity.
Defined.

Lemma other_events_leave_store_witness :
  eventState
    (handleStatusModemOn Sample.env "A" (Sample.payload "STATUS_MODEM_ON")
       "STATUS_MODEM_ON" both_set)
  = eventState both_set.
Proof.
  apply (other_events_leave_store Sample.env "STATUS_MODEM_ON" "A"
           (Sample.payload "STATUS_MODEM_ON") both_set);
    [discriminate ..|reflexivity].
Defined.

(** ** The store across a run *)

Lemma append_assoc_r (a b c : string) : (a +:+ b) +:+ c = a +:+ (b +:+ c).
Proof.
  induction a as [|x a IH]; [done|].
  change (String x ((a +:+ b) +:+ c) = String x (a +:+ (b +:+ c))).
  by rewrite IH.
Qed.

(** X6.  Two senders have a key of the store in common exactly when they
    are equal or when one is the other followed by [_CLEAR]. *)
Theorem senders_share_key_iff (a b : string) :
  (exists f g, In f flagNames /\ In g flagNames
               /\ flagKey a f = flagKey b g)
  <-> a = b \/ a = b +:+ "_CLEAR" \/ b = a +:+ "_CLEAR".
Proof.
  split.
  - intros (f & g & Hf & Hg & Hk).
    destruct (flagKey_collision a b f g Hf Hg Hk)
      as [[? _]|[[? _]|[? _]]]; auto.
  - intros [->|[->| ->]].
    + exists "POWER_BACKUP_MODE", "POWER_BACKUP_MODE". simpl. tauto.
    + exists "ALARM_METER_DEVICE", "CLEAR_ALARM_METER_DEVICE".
      split; [simpl; tauto|]. split; [simpl; tauto|].
      unfold flagKey. by rewrite append_assoc_r.
    + exists "CLEAR_ALARM_METER_DEVICE", "ALARM_METER_DEVICE".
      split; [simpl; tauto|]. split; [simpl; tauto|].
      unfold flagKey. by rewrite append_assoc_r.
Qed.

Section Runs.

Variable E : Env.

Local Abbreviation F := (float64 E).

Lemma dispatch_all_true (event A m : string) (w w' : world F) :
  all_true w -> dispatch E event A m w = Done w' -> all_true w'.
Proof.
  intros Hw Hd key b Hb.
  destruct (dispatch_footprint E A event m w w' Hd key) as [H|[[_ H]|[_ H]]];
    rewrite H in Hb; [by apply (Hw key)|congruence|discriminate].
Qed.

(** X7.  The state store never holds the value [false]: when every value
    of the store is [true] before a run of deliveries, every value is
    [true] after it. *)
Theorem store_values_true (events : list (string * string * string))
    (w w' : world F) :
  all_true w -> run E events w = Done w' -> all_true w'.
Proof.
  revert w. induction events as [|[[event A] m] events IH]; intros w Hw.
  - by intros [= <-].
  - cbn [run]. destruct (dispatch E event A m w) as [w1|] eqn:Hd; [|done].
    apply IH. by apply (dispatch_all_true event A m w).
Qed.

(** X8.  A run of deliveries leaves the four keys of a sender [B] as they
    were when no delivery of the run comes from [B], from [B] followed by
    [_CLEAR], or from a sender that [B] is followed by [_CLEAR] of. *)
Theorem run_isolated (B : string) (events : list (string * string * string))
    (w w' : world F) :
  Forall (fun d => d.1.2 <> B /\ d.1.2 <> B +:+ "_CLEAR"
                   /\ B <> d.1.2 +:+ "_CLEAR") events ->
  run E events w = Done w' ->
  forall key, own B key -> eventState w' !! key = eventState w !! key.
Proof.
  intros Hall. revert w.
  induction Hall as [|[[event A] m] events (Hn & Hab & Hba) _ IH];
    intros w Hr key Hk.
  - by injection Hr as <-.
  - cbn [run] in Hr. cbn in Hn, Hab, Hba.
    destruct (dispatch E event A m w) as [w1|] eqn:Hd; [|done].
    rewrite (IH w1 Hr key Hk).
    by apply (dispatch_isolated E event A B m w w1).
Qed.

Lemma dispatch_keeps_conjunction_of (event s A m flag : string)
    (w w' : world F) :
  A <> s +:+ "_CLEAR" ->
  flag = "POWER_BACKUP_MODE" \/ flag = "ALARM_METER_DEVICE" ->
  dispatch E event s m w = Done w' ->
  isSet w (flagKey A flag) = true -> isSet w' (flagKey A flag) = true.
Proof.
  intros Hn Hf Hd Hs. unfold isSet in *.
  destruct (dispatch_footprint E s event m w w' Hd (flagKey A flag))
    as [->|[[_ ->]|[Hk _]]]; [exact Hs|reflexivity|].
  exfalso.
  assert (Hin : In flag flagNames) by (destruct Hf as [->| ->]; simpl; tauto).
  destruct Hk as [Hk|Hk];
    [ destruct (flagKey_collision A s flag "POWER_RESTORE_MODE" Hin
                  ltac:(simpl; tauto) Hk) as [[_ H]|[[_ [_ H]]|[_ [H _]]]]
    | destruct (flagKey_collision A s flag "CLEAR_ALARM_METER_DEVICE" Hin
                  ltac:(simpl; tauto) Hk) as [[_ H]|[[H _]|[_ [H _]]]] ];
    try done; destruct Hf as [->| ->]; discriminate.
Qed.

(** X9.  Once a conjunction flag of a sender [A] is set, it stays set
    across every run of deliveries none of which comes from the sender that
    [A] is followed by [_CLEAR] of: the deliveries of [A] itself and of
    every other sender never remove it. *)
Theorem run_keeps_conjunction (A flag : string)
    (events : list (string * string * string)) (w w' : world F) :
  flag = "POWER_BACKUP_MODE" \/ flag = "ALARM_METER_DEVICE" ->
  Forall (fun d => A <> d.1.2 +:+ "_CLEAR") events ->
  run E events w = Done w' ->
  isSet w (flagKey A flag) = true -> isSet w' (flagKey A flag) = true.
Proof.
  intros Hf Hall. revert w.
  induction Hall as [|[[event s] m] events Hn _ IH]; intros w Hr Hs.
  - by injection Hr as <-.
  - cbn [run] in Hr. cbn in Hn.
    destruct (dispatch E event s m w) as [w1|] eqn:Hd; [|done].
    apply (IH w1 Hr).
    by apply (dispatch_keeps_conjunction_of event s A m flag w w1).
Qed.

End Runs.

Lemma store_values_true_witness :
  exists w',
    run Sample.env
      [("POWER_BACKUP_MODE", "A", Sample.payload "POWER_BACKUP_MODE");
       ("POWER_RESTORE_MODE", "A", Sample.payload "POWER_RESTORE_MODE")]
      Sample.empty = Done w'
    /\ all_true w'.
Proof.
  eexists. split; [vm_compute; reflexivity|].
  apply (store_values_true Sample.env
           [("POWER_BACKUP_MODE", "A", Sample.payload "POWER_BACKUP_MODE");
            ("POWER_RESTORE_MODE", "A", Sample.payload "POWER_RESTORE_MODE")]
           Sample.empty).
  - intros key b. vm_compute. discriminate.
  - vm_compute. reflexivity.
Defined.

Lemma run_isolated_witness :
  exists w',
    run Sample.env
      [("POWER_BACKUP_MODE", "B", Sample.payload "POWER_BACKUP_MODE");
       ("POWER_RESTORE_MODE", "B", Sample.payload "POWER_RESTORE_MODE")]
      both_set = Done w'
    /\ forall key, own "A" key ->
                   eventState w' !! key = eventState both_set !! key.
Proof.
  eexists. split; [vm_compute; reflexivity|].
  apply (run_isolated Sample.env "A"
           [("POWER_BACKUP_MODE", "B", Sample.payload "POWER_BACKUP_MODE");
            ("POWER_RESTORE_MODE", "B", Sample.payload "POWER_RESTORE_MODE")]
           both_set).
  - repeat constructor; vm_compute; discriminate.
  - vm_compute. reflexivity.
Defined.

Lemma run_keeps_conjunction_witness :
  exists w',
    run Sample.env
      [("POWER_RESTORE_MODE", "A", Sample.payload "POWER_RESTORE_MODE");
       ("CLEAR_ALARM_METER_DEVICE", "B",
        Sample.payload "CLEAR_ALARM_METER_DEVICE")]
      both_set = Done w'
    /\ isSet w' (flagKey "A" "ALARM_METER_DEVICE") = true.
Proof.
  eexists. split; [vm_compute; reflexivity|].
  apply (run_keeps_conjunction Sample.env "A" "ALARM_METER_DEVICE"
           [("POWER_RESTORE_MODE", "A", Sample.payload "POWER_RESTORE_MODE");
            ("CLEAR_ALARM_METER_DEVICE", "B",
             Sample.payload "CLEAR_ALARM_METER_DEVICE")]
           both_set).
  - by right.
  - repeat constructor; vm_compute; discriminate.
  - vm_compute. reflexivity.
  - vm_compute. reflexivity.
Defined.

(** ** The callback *)

Lemma Split_slash_length (s : string) :
  length (Split_slash s) = S (count_slash s).
Proof.
  induction s as [|c s IH]; [done|].
  cbn [Split_slash count_slash]. unfold is_slash.
  destruct (Ascii.eqb c "/"); cbn [length]; [by rewrite IH|].
  destruct (Split_slash s); cbn [length] in *; lia.
Qed.

(** A topic level is followed by the end of the topic or by a slash. *)
Lemma Split_slash_level (c tail : string) :
  count_slash c = 0%nat ->
  stops (fun x => negb (is_slash x)) tail = true ->
  exists l, Split_slash (c +:+ tail) = c :: l.
Proof.
  intros Hc Ht. induction c as [|x c IH].
  - destruct tail as [|y tail]; [by exists []|].
    cbn [stops] in Ht. rewrite negb_involutive in Ht.
    change ("" +:+ String y tail) with (String y tail).
    cbn [Split_slash]. unfold is_slash in Ht. rewrite Ht. by eexists.
  - cbn [count_slash] in Hc. unfold is_slash in Hc.
    change (String x c +:+ tail) with (String x (c +:+ tail)).
    cbn [Split_slash]. destruct (Ascii.eqb x "/"); [discriminate|].
    destruct (IH Hc) as [l ->]. by eexists.
Qed.

Lemma Split_slash_next (a r : string) :
  count_slash a = 0%nat ->
  Split_slash (a +:+ String "/" r) = a :: Split_slash r.
Proof.
  intros Ha. induction a as [|x a IH]; [done|].
  cbn [count_slash] in Ha. unfold is_slash in Ha.
  change (String x a +:+ String "/" r) with (String x (a +:+ String "/" r)).
  cbn [Split_slash]. destruct (Ascii.eqb x "/"); [discriminate|].
  by rewrite (IH Ha).
Qed.

Section Callback.

Variable E : Env.

Local Abbreviation F := (float64 E).

(** X10.  The sender of a delivery is the third level of its topic: on a
    topic [a/b/c] or [a/b/c/...], a payload that is a JSON object with a
    string ["event"] and a timestamp that is a number or a string is
    handed to the handler of that event with the sender [c]. *)
Theorem onMessage_routes (a b c tail payload event : string)
    (msgData : gmap string (JSON F)) (w : world F) :
  count_slash a = 0%nat -> count_slash b = 0%nat -> count_slash c = 0%nat ->
  stops (fun x => negb (is_slash x)) tail = true ->
  json_Unmarshal E payload = Some msgData ->
  msgData !! "event" = Some (JString event) ->
  is_Some (getTimestamp E msgData) ->
  onMessage E (a +:+ String "/" (b +:+ String "/" (c +:+ tail))) payload w
  = dispatch E event c payload w.
Proof.
  intros Ha Hb Hc Ht Hu He [t Hts]. unfold onMessage.
  rewrite Hu, He, (Split_slash_next a _ Ha), (Split_slash_next b _ Hb).
  destruct (Split_slash_level c tail Hc Ht) as [l ->].
  cbn [lookup list_lookup]. by rewrite Hts.
Qed.

(** X11.  On a topic of fewer than three levels the callback panics as
    soon as the payload is a JSON object with a string ["event"],
    whatever the event. *)
Theorem onMessage_short_topic_panics (topic payload event : string)
    (msgData : gmap string (JSON F)) (w : world F) :
  (count_slash topic < 2)%nat ->
  json_Unmarshal E payload = Some msgData ->
  msgData !! "event" = Some (JString event) ->
  onMessage E topic payload w = Panic.
Proof.
  intros Hn Hu He. unfold onMessage. rewrite Hu, He.
  destruct (Split_slash topic !! 2%nat) as [s|] eqn:Hs; [|done].
  apply lookup_lt_Some in Hs. rewrite Split_slash_length in Hs. lia.
Qed.

(** X12.  The callback drops a delivery, leaving the world as it was, when
    the payload is not JSON, when its ["event"] is missing or not a string,
    and, on a topic of three levels or more, when its timestamp is neither
    a number nor a string. *)
Theorem onMessage_drops (topic payload : string) (w : world F) :
  json_Unmarshal E payload = None
  \/ (exists msgData,
        json_Unmarshal E payload = Some msgData
        /\ ((forall e, msgData !! "event" <> Some (JString e))
            \/ ((2 <= count_slash topic)%nat
                /\ getTimestamp E msgData = None))) ->
  onMessage E topic payload w = Done w.
Proof.
  unfold onMessage. intros [->|(d & -> & [He|[Hn Ht]])]; [done| |].
  - destruct (d !! "event") as [[| | |e| |]|]; try done. by destruct (He e).
  - destruct (d !! "event") as [[| | |e| |]|]; try done.
    destruct (Split_slash topic !! 2%nat) eqn:Hs; [by rewrite Ht|].
    apply lookup_ge_None in Hs. rewrite Split_slash_length in Hs. lia.
Qed.

(** X13.  A timestamp written as a JSON number passes the check of the
    callback, and the handler of every event but GEOLOCATION then drops the
    delivery: the handlers read the timestamp as a string only. *)
Theorem numeric_timestamp_dropped (topic payload event : string)
    (msgData : gmap string (JSON F)) (f : F) (w : world F) :
  (2 <= count_slash topic)%nat ->
  json_Unmarshal E payload = Some msgData ->
  msgData !! "event" = Some (JString event) ->
  msgData !! "timestamp" = Some (JNumber f) ->
  event <> "GEOLOCATION" ->
  getTimestamp E msgData = Some (inl (int64_of_float64 E f))
  /\ onMessage E topic payload w = Done w.
Proof.
  intros Hn Hu He Ht Hg. unfold getTimestamp. rewrite Ht. split; [done|].
  unfold onMessage, getTimestamp. rewrite Hu, He, Ht.
  destruct (Split_slash topic !! 2%nat) as [s|] eqn:Hs.
  - apply dispatch_drops_undecodable; [|done].
    apply (timestamp_not_string E payload msgData Hu). congruence.
  - apply lookup_ge_None in Hs. rewrite Split_slash_length in Hs. lia.
Qed.

Lemma handleSetTemperatureEvents_Panic_inv (A m : string) (w : world F) :
  handleSetTemperatureEvents E A m w = Panic ->
  exists msgData ts,
    json_Unmarshal E m = Some msgData
    /\ parseTimestamp E msgData = Some ts
    /\ forall s, msgData !! "message" <> Some (JString s).
Proof.
  unfold handleSetTemperatureEvents.
  destruct (json_Unmarshal E m) as [d|]; [|done].
  destruct (parseTimestamp E d) as [ts|] eqn:Hp; [|done].
  intros H. exists d, ts. split; [done|]. split; [done|].
  intros s Hs. rewrite Hs in H. cbv zeta in H.
  by destruct (negb _).
Qed.

(** X14.  The handler of SET_TEMPERATURE panics exactly on the payloads
    that decode, timestamp included, and whose ["message"] is absent or not
    a string. *)
Theorem set_temperature_panic_iff (A m : string) (w : world F) :
  handleSetTemperatureEvents E A m w = Panic
  <-> exists msgData ts,
        json_Unmarshal E m = Some msgData
        /\ parseTimestamp E msgData = Some ts
        /\ forall s, msgData !! "message" <> Some (JString s).
Proof.
  split; [apply handleSetTemperatureEvents_Panic_inv|].
  intros (d & ts & Hu & Hp & Hn).
  by apply (handleSetTemperatureEvents_panics E A m ts d).
Qed.

(** X15.  A run of deliveries panics only on a SET_TEMPERATURE delivery
    whose payload decodes and has no string ["message"]. *)
Theorem run_panics_only_on_set_temperature
    (events : list (string * string * string)) (w : world F) :
  run E events w = Panic ->
  Exists (fun d => d.1.1 = "SET_TEMPERATURE"
                   /\ exists msgData ts,
                        json_Unmarshal E d.2 = Some msgData
                        /\ parseTimestamp E msgData = Some ts
                        /\ forall s, msgData !! "message"
                                     <> Some (JString s)) events.
Proof.
  revert w. induction events as [|[[event A] m] events IH]; intros w;
    [done|]. cbn [run].
  destruct (dispatch E event A m w) as [w1|] eqn:Hd.
  - intros Hr. right. by apply (IH w1).
  - intros _. left. cbn.
    destruct (String.eqb_spec event "SET_TEMPERATURE") as [->|Hn].
    + split; [done|].
      by apply (handleSetTemperatureEvents_Panic_inv A m w).
    + destruct (dispatch_returns E event A m w Hn) as [w1 Hw]. congruence.
Qed.

End Callback.

Lemma onMessage_routes_witness :
  onMessage Sample.env "modem/event/A/up" (Sample.payload "STATUS_MODEM_ON")
            Sample.empty
  = dispatch Sample.env "STATUS_MODEM_ON" "A"
             (Sample.payload "STATUS_MODEM_ON") Sample.empty.
Proof.
  apply (onMessage_routes Sample.env "modem" "event" "A" "/up"
           (Sample.payload "STATUS_MODEM_ON") "STATUS_MODEM_ON"
           (<["timestamp" := JString "1700000000"]>
              (<["event" := JString "STATUS_MODEM_ON"]> ∅)) Sample.empty);
    first [reflexivity | vm_compute; reflexivity | vm_compute; by eexists].
Defined.

Lemma onMessage_short_topic_panics_witness :
  onMessage Sample.env "modem/A" (Sample.payload "STATUS_MODEM_ON")
            Sample.empty = Panic.
Proof.
  apply (onMessage_short_topic_panics Sample.env "modem/A"
           (Sample.payload "STATUS_MODEM_ON") "STATUS_MODEM_ON"
           (<["timestamp" := JString "1700000000"]>
              (<["event" := JString "STATUS_MODEM_ON"]> ∅)) Sample.empty).
  - vm_compute. lia.
  - vm_compute. reflexivity.
  - vm_compute. reflexivity.
Defined.

Lemma onMessage_drops_witness :
  onMessage Sample.env "modem/event/A" "not json" both_set = Done both_set
  /\ onMessage Sample.env "modem/event/A"
       (Sample.object [("event", "STATUS_MODEM_ON")]) both_set
     = Done both_set.
Proof.
  split.
  - apply (onMessage_drops Sample.env "modem/event/A" "not json" both_set).
    left. vm_compute. reflexivity.
  - apply (onMessage_drops Sample.env "modem/event/A"
             (Sample.object [("event", "STATUS_MODEM_ON")]) both_set).
    right. exists {[ "event" := JString "STATUS_MODEM_ON" ]}.
    split; [vm_compute; reflexivity|]. right.
    split; [vm_compute; lia|vm_compute; reflexivity].
Defined.

Lemma run_panics_only_on_set_temperature_witness :
  Exists (fun d => d.1.1 = "SET_TEMPERATURE"
                   /\ exists msgData ts,
                        json_Unmarshal Sample.env d.2 = Some msgData
                        /\ parseTimestamp Sample.env msgData = Some ts
                        /\ forall s, msgData !! "message"
                                     <> Some (JString s))
    [("STATUS_MODEM_ON", "A", Sample.payload "STATUS_MODEM_ON");
     ("SET_TEMPERATURE", "A", Sample.payload "SET_TEMPERATURE")].
Proof.
  apply (run_panics_only_on_set_temperature Sample.env
           [("STATUS_MODEM_ON", "A", Sample.payload "STATUS_MODEM_ON");
            ("SET_TEMPERATURE", "A", Sample.payload "SET_TEMPERATURE")]
           Sample.empty).
  vm_compute. reflexivity.
Defined.

Lemma numeric_timestamp_dropped_witness :
  getTimestamp SampleNumbers.env
    (<["timestamp" := JNumber 1700000000]>
       (<["event" := JString "STATUS_MODEM_ON"]> ∅))
  = Some (inl 1700000000)
  /\ onMessage SampleNumbers.env "modem/event/A"
       (SampleNumbers.payload "STATUS_MODEM_ON") both_set
     = Done both_set.
Proof.
  apply (numeric_timestamp_dropped SampleNumbers.env "modem/event/A"
           (SampleNumbers.payload "STATUS_MODEM_ON") "STATUS_MODEM_ON"
           (<["timestamp" := JNumber 1700000000]>
              (<["event" := JString "STATUS_MODEM_ON"]> ∅))
           1700000000 both_set);
    first [ discriminate | vm_compute; lia | vm_compute; reflexivity ].
Defined.

(** ** Timestamps *)


Lemma wrap64_small (z : Z) : - 2 ^ 63 <= z < 2 ^ 63 -> wrap64 z = z.
Proof. intros H. unfold wrap64. rewrite Z.mod_small; lia. Qed.

(** X16.  A timestamp of exactly 10 characters whose value is a number of
    seconds of 10 digits is scaled to the number of milliseconds, of 13
    digits, without overflow. *)
Theorem seconds_scaled_to_millis (E : Env) (timestampStr : string)
    (f : float64 E) :
  String.length timestampStr = 10%nat ->
  10 ^ 9 <= int64_of_float64 E f < 10 ^ 10 ->
  scaleTimestamp E timestampStr f = int64_of_float64 E f * 1000
  /\ 10 ^ 12 <= scaleTimestamp E timestampStr f < 10 ^ 13.
Proof.
  intros Hl Hr. unfold scaleTimestamp. rewrite Hl. cbn [Nat.eqb].
  rewrite wrap64_small; lia.
Qed.


Lemma seconds_scaled_to_millis_witness :
  scaleTimestamp Sample.env "1700000000" 1700000000 = 1700000000 * 1000
  /\ 10 ^ 12 <= scaleTimestamp Sample.env "1700000000" 1700000000 < 10 ^ 13.
Proof.
  apply (seconds_scaled_to_millis Sample.env "1700000000" 1700000000).
  - reflexivity.
  - split; [vm_compute; discriminate|vm_compute; reflexivity].
Defined.


(** ** Numbers in sentences *)

Lemma span_spec (p : ascii -> bool) (s : string) :
  s = (span p s).1 +:+ (span p s).2
  /\ all_chars p (span p s).1 = true
  /\ stops p (span p s).2 = true.
Proof.
  induction s as [|c s (IH1 & IH2 & IH3)]; [done|].
  cbn [span]. destruct (p c) eqn:Hc.
  - destruct (span p s) as [a b]. cbn [fst snd all_chars] in *.
    rewrite Hc. split; [|by split].
    change (String c a +:+ b) with (String c (a +:+ b)). by rewrite <- IH1.
  - cbn [fst snd all_chars stops]. by rewrite Hc.
Qed.

Lemma span_app (p : ascii -> bool) (a b : string) :
  all_chars p a = true -> stops p b = true -> span p (a +:+ b) = (a, b).
Proof.
  intros Ha Hb. induction a as [|c a IH].
  - destruct b as [|c b]; [done|]. cbn [stops] in Hb.
    change ("" +:+ String c b) with (String c b). cbn [span].
    apply negb_true_iff in Hb. by rewrite Hb.
  - cbn [all_chars] in Ha. apply andb_true_iff in Ha as [Hc Ha].
    change (String c a +:+ b) with (String c (a +:+ b)).
    cbn [span]. by rewrite Hc, (IH Ha).
Qed.

Lemma decimal_nonneg_acc (s : string) (acc : Z) :
  all_chars is_digit s = true -> 0 <= acc ->
  0 <= number_of 10 (fun c => Z.of_N (N_of_ascii c) - 48) acc s.
Proof.
  revert acc. induction s as [|c s IH]; intros acc Hs Hacc; [done|].
  cbn [all_chars] in Hs. apply andb_true_iff in Hs as [Hc Hs].
  cbn [number_of]. apply (IH _ Hs).
  unfold is_digit in Hc. apply andb_true_iff in Hc as [Hc _].
  apply N.leb_le in Hc. lia.
Qed.

Lemma first_digits_all (s m : string) :
  first_digits s = Some m -> all_chars is_digit m = true.
Proof.
  induction s as [|c s IH]; [done|]. cbn [first_digits].
  destruct (is_digit c); [|exact IH].
  intros [= <-]. exact (proj1 (proj2 (span_spec is_digit (String c s)))).
Qed.

Lemma first_digits_skip (pre s : string) :
  all_chars (fun c => negb (is_digit c)) pre = true ->
  first_digits (pre +:+ s) = first_digits s.
Proof.
  intros Hp. induction pre as [|c pre IH]; [done|].
  cbn [all_chars] in Hp. apply andb_true_iff in Hp as [Hc Hp].
  change (String c pre +:+ s) with (String c (pre +:+ s)).
  cbn [first_digits]. apply negb_true_iff in Hc. rewrite Hc. by apply IH.
Qed.

(** X18.  The number found in a sentence is an [int] that is never
    negative, and it is 0 when the sentence has no digit. *)
Theorem findNumbersInSentences_range (s : string) :
  0 <= findNumbersInSentences s <= MaxInt64
  /\ (all_chars (fun c => negb (is_digit c)) s = true ->
      findNumbersInSentences s = 0).
Proof.
  unfold findNumbersInSentences, Atoi_digits. split.
  - destruct (first_digits s) as [m|] eqn:Hm; [|unfold MaxInt64; lia].
    pose proof (decimal_nonneg_acc m 0 (first_digits_all s m Hm) ltac:(lia)).
    destruct (Z.leb_spec
                (number_of 10 (fun c => Z.of_N (N_of_ascii c) - 48) 0 m)
                MaxInt64); [lia|unfold MaxInt64; lia].
  - intros Hs. rewrite <- (append_empty_r s), (first_digits_skip s "" Hs).
    reflexivity.
Qed.

(** X19.  The number found in a sentence is the value of its first run of
    decimal digits, and 0 when that value is beyond the largest [int]. *)
Theorem findNumbersInSentences_first (pre ds rest : string) :
  all_chars (fun c => negb (is_digit c)) pre = true ->
  ds <> "" -> all_chars is_digit ds = true ->
  stops is_digit rest = true ->
  findNumbersInSentences (pre +:+ ds +:+ rest)
  = if decimal ds <=? MaxInt64 then decimal ds else 0.
Proof.
  intros Hp Hne Hd Hr. unfold findNumbersInSentences.
  rewrite (first_digits_skip pre _ Hp).
  destruct ds as [|c ds]; [done|].
  change (String c ds +:+ rest) with (String c (ds +:+ rest)).
  cbn [first_digits]. cbn [all_chars] in Hd.
  apply andb_true_iff in Hd as [Hc Hd]. rewrite Hc.
  change (String c (ds +:+ rest)) with (String c ds +:+ rest).
  rewrite (span_app is_digit (String c ds) rest); [|by cbn; rewrite Hc|done].
  cbn [fst]. unfold Atoi_digits, decimal. by destruct (_ <=? _).
Qed.

Lemma findNumbersInSentences_first_witness :
  findNumbersInSentences "set 25 C" = 25
  /\ findNumbersInSentences "9223372036854775808" = 0.
Proof.
  split.
  - apply (findNumbersInSentences_first "set " "25" " C");
      first [reflexivity | discriminate].
  - apply (findNumbersInSentences_first "" "9223372036854775808" "");
      first [reflexivity | discriminate].
Defined.

(** ** Cell towers *)

(** The text that one match of the expression covers. *)
Lemma match_tower_sound (s a b c d rest : string) :
  match_tower s = Some ((a, b, c, d), rest) ->
  a <> "" /\ b <> "" /\ c <> "" /\ d <> ""
  /\ all_chars is_digit a = true /\ all_chars is_digit b = true
  /\ all_chars is_hex c = true /\ all_chars is_hex d = true
  /\ s = String "[" (a +:+ String "," (b +:+ String ","
           (c +:+ String "," (d +:+ String "]" rest)))).
Proof.
  unfold match_tower.
  destruct s as [|x0 s]; [done|].
  destruct (Ascii.eqb_spec x0 "[") as [->|Hx];
    [|destruct x0 as [[] [] [] [] [] [] [] []]; done].
  pose proof (span_spec is_digit s) as (E1 & A1 & _).
  destruct (span is_digit s) as [[|c1 m1] [|x1 r2]]; try done.
  destruct (Ascii.eqb_spec x1 ",") as [->|Hx];
    [|destruct x1 as [[] [] [] [] [] [] [] []]; done].
  pose proof (span_spec is_digit r2) as (E2 & A2 & _).
  destruct (span is_digit r2) as [[|c2 m2] [|x2 r4]]; try done.
  destruct (Ascii.eqb_spec x2 ",") as [->|Hx];
    [|destruct x2 as [[] [] [] [] [] [] [] []]; done].
  pose proof (span_spec is_hex r4) as (E3 & A3 & _).
  destruct (span is_hex r4) as [[|c3 m3] [|x3 r6]]; try done.
  destruct (Ascii.eqb_spec x3 ",") as [->|Hx];
    [|destruct x3 as [[] [] [] [] [] [] [] []]; done].
  pose proof (span_spec is_hex r6) as (E4 & A4 & _).
  destruct (span is_hex r6) as [[|c4 m4] [|x4 r8]]; try done.
  destruct (Ascii.eqb_spec x4 "]") as [->|Hx];
    [|destruct x4 as [[] [] [] [] [] [] [] []]; done].
  intros [= <- <- <- <- <-]. cbn [fst snd] in *.
  repeat (split; [done|]). congruence.
Qed.

Lemma match_tower_complete (a b c d rest : string) :
  a <> "" -> b <> "" -> c <> "" -> d <> "" ->
  all_chars is_digit a = true -> all_chars is_digit b = true ->
  all_chars is_hex c = true -> all_chars is_hex d = true ->
  match_tower (String "[" (a +:+ String "," (b +:+ String ","
                 (c +:+ String "," (d +:+ String "]" rest)))))
  = Some ((a, b, c, d), rest).
Proof.
  intros Ha Hb Hc Hd Da Db Dc Dd. unfold match_tower.
  rewrite (span_app is_digit a (String "," _) Da eq_refl).
  destruct a as [|a0 a]; [done|].
  rewrite (span_app is_digit b (String "," _) Db eq_refl).
  destruct b as [|b0 b]; [done|].
  rewrite (span_app is_hex c (String "," _) Dc eq_refl).
  destruct c as [|c0 c]; [done|].
  rewrite (span_app is_hex d (String "]" _) Dd eq_refl).
  by destruct d as [|d0 d].
Qed.

(** X20.  At the head of a text the expression for cell towers matches
    exactly the texts [[mcc,mnc,lac,cid]...] whose first two fields are
    non-empty strings of decimal digits and whose last two are non-empty
    strings of hexadecimal digits; the groups are those four fields. *)
Theorem match_tower_iff (s a b c d rest : string) :
  match_tower s = Some ((a, b, c, d), rest)
  <-> a <> "" /\ b <> "" /\ c <> "" /\ d <> ""
      /\ all_chars is_digit a = true /\ all_chars is_digit b = true
      /\ all_chars is_hex c = true /\ all_chars is_hex d = true
      /\ s = String "[" (a +:+ String "," (b +:+ String ","
               (c +:+ String "," (d +:+ String "]" rest)))).
Proof.
  split; [apply match_tower_sound|].
  intros (Ha & Hb & Hc & Hd & Da & Db & Dc & Dd & ->).
  by apply match_tower_complete.
Qed.

Lemma length_append (a b : string) :
  String.length (a +:+ b) = (String.length a + String.length b)%nat.
Proof.
  induction a as [|x a IH]; [done|].
  change (String x a +:+ b) with (String x (a +:+ b)).
  cbn [String.length]. by rewrite IH.
Qed.

Lemma match_tower_shorter (s rest : string)
    (m : string * string * string * string) :
  match_tower s = Some (m, rest) ->
  (String.length rest < String.length s)%nat.
Proof.
  destruct m as [[[a b] c] d]. intros H.
  apply match_tower_sound in H as (_ & _ & _ & _ & _ & _ & _ & _ & ->).
  cbn [String.length]. rewrite !length_append. cbn [String.length].
  rewrite !length_append. cbn [String.length]. rewrite !length_append.
  cbn [String.length]. rewrite !length_append. cbn [String.length]. lia.
Qed.

Lemma find_towers_enough (n k : nat) (s : string) :
  (String.length s < n)%nat -> (String.length s < k)%nat ->
  find_towers n s = find_towers k s.
Proof.
  revert k s. induction n as [|n IH]; intros k s Hn Hk; [lia|].
  destruct k as [|k]; [lia|]. cbn [find_towers].
  destruct (match_tower s) as [[m rest]|] eqn:Hm.
  - apply match_tower_shorter in Hm. f_equal. apply IH; lia.
  - destruct s as [|x s]; [done|]. cbn [String.length] in *. apply IH; lia.
Qed.

Lemma find_towers_S (n : nat) (s : string) :
  find_towers (S n) s
  = match match_tower s with
    | Some (m, rest) => m :: find_towers n rest
    | None => match s with
              | EmptyString => []
              | String _ r => find_towers n r
              end
    end.
Proof. reflexivity. Qed.

Lemma match_tower_head (x : ascii) (s : string) :
  Ascii.eqb x "[" = false -> match_tower (String x s) = None.
Proof.
  intros Hx. destruct (match_tower (String x s)) as [[[[[a b] c] d] r]|] eqn:H;
    [|done].
  apply match_tower_sound in H as (_ & _ & _ & _ & _ & _ & _ & _ & [= -> _]).
  discriminate.
Qed.

(** X21.  The scan of a message finds the leftmost cell tower and goes on
    after it: on a message made of a text without opening bracket, a well
    formed tower and a rest, the matches are that tower and then the
    matches of the rest. *)
Theorem FindAllStringSubmatch_first (pre a b c d rest : string) :
  all_chars (fun x => negb (Ascii.eqb x "[")) pre = true ->
  a <> "" -> b <> "" -> c <> "" -> d <> "" ->
  all_chars is_digit a = true -> all_chars is_digit b = true ->
  all_chars is_hex c = true -> all_chars is_hex d = true ->
  FindAllStringSubmatch
    (pre +:+ String "[" (a +:+ String "," (b +:+ String ","
               (c +:+ String "," (d +:+ String "]" rest)))))
  = (a, b, c, d) :: FindAllStringSubmatch rest.
Proof.
  intros Hp Ha Hb Hc Hd Da Db Dc Dd. unfold FindAllStringSubmatch.
  set (t := String "[" _).
  assert (Ht : match_tower t = Some ((a, b, c, d), rest))
    by (by apply match_tower_complete).
  induction pre as [|x pre IH].
  - change ("" +:+ t) with t.
    etrans; [apply find_towers_S|]. rewrite Ht. f_equal.
    apply match_tower_shorter in Ht. apply find_towers_enough; lia.
  - cbn [all_chars] in Hp. apply andb_true_iff in Hp as [Hx Hp].
    apply negb_true_iff in Hx.
    change (String x pre +:+ t) with (String x (pre +:+ t)).
    etrans; [apply find_towers_S|]. rewrite (match_tower_head x _ Hx).
    rewrite <- (IH Hp). apply find_towers_enough; cbn [String.length]; lia.
Qed.


Lemma hex_nonneg_acc (s : string) (acc : Z) :
  all_chars is_hex s = true -> 0 <= acc ->
  0 <= number_of 16 hex_value acc s.
Proof.
  revert acc. induction s as [|x s IH]; intros acc Hs Hacc; [done|].
  cbn [all_chars] in Hs. apply andb_true_iff in Hs as [Hx Hs].
  cbn [number_of]. apply (IH _ Hs).
  assert (0 <= hex_value x); [|lia].
  unfold is_hex in Hx. unfold hex_value. cbv zeta.
  repeat match goal with
         | |- context [(?a <=? ?b)] => destruct (Z.leb_spec a b)
         end;
    repeat match type of Hx with
           | context [(?a <=? ?b)%N] => destruct (N.leb_spec a b)
           end; simpl in Hx; try discriminate; lia.
Qed.

Lemma ParseInt_hex_range (s : string) (v : Z) :
  all_chars is_hex s = true -> ParseInt_hex s = Some v ->
  0 <= v <= MaxInt64.
Proof.
  intros Hs. unfold ParseInt_hex.
  pose proof (hex_nonneg_acc s 0 Hs ltac:(lia)).
  destruct (Z.leb_spec (number_of 16 hex_value 0 s) MaxInt64); [|done].
  intros [= <-]. lia.
Qed.

Lemma find_towers_well_formed (n : nat) (s : string) :
  Forall (fun m : string * string * string * string =>
            m.1.1.1 <> "" /\ m.1.1.2 <> ""
            /\ all_chars is_digit m.1.1.1 = true
            /\ all_chars is_digit m.1.1.2 = true
            /\ all_chars is_hex m.1.2 = true /\ all_chars is_hex m.2 = true)
         (find_towers n s).
Proof.
  revert s. induction n as [|n IH]; intros s; [constructor|].
  cbn [find_towers].
  destruct (match_tower s) as [[[[[a b] c] d] rest]|] eqn:Hm.
  - apply match_tower_sound in Hm
      as (Ha & Hb & _ & _ & Da & Db & Dc & Dd & _).
    apply List.Forall_cons; [done|apply IH].
  - destruct s; [constructor|apply IH].
Qed.

(** X23.  Every cell tower that the geolocation handler sends to the
    service has a cell identifier and a location area code that are
    non-negative [int64] values, and a country code and a network code that
    are non-empty strings of decimal digits. *)
Theorem cell_towers_well_formed (s : string) :
  Forall (fun t => 0 <= cellId t <= MaxInt64
                   /\ 0 <= locationAreaCode t <= MaxInt64
                   /\ mobileCountryCode t <> ""
                   /\ mobileNetworkCode t <> ""
                   /\ all_chars is_digit (mobileCountryCode t) = true
                   /\ all_chars is_digit (mobileNetworkCode t) = true)
         (parseCellTowers (FindAllStringSubmatch s)).
Proof.
  unfold FindAllStringSubmatch.
  pose proof (find_towers_well_formed (S (String.length s)) s) as Hw.
  induction Hw as [|[[[a b] c] d] l (Ha & Hb & Da & Db & Dc & Dd) _ IH];
    [constructor|].
  cbn [parseCellTowers]. cbn [fst snd] in *.
  destruct (ParseInt_hex c) as [lac|] eqn:Hc; [|exact IH].
  destruct (ParseInt_hex d) as [cid|] eqn:Hd; [|exact IH].
  apply List.Forall_cons; [|exact IH]. cbn.
  pose proof (ParseInt_hex_range c lac Dc Hc).
  pose proof (ParseInt_hex_range d cid Dd Hd). done.
Qed.

(** X24.  The geolocation handler leaves the state store as it was, and
    it calls the broker and the database only when the message holds a
    cell tower and the service answers 200 with a body that decodes. *)
Theorem geolocation_publishes_on_200 (E : Env) (messageStr A event : string)
    (w : world (float64 E)) :
  eventState (handleGeolocationEvent E messageStr A event w) = eventState w
  /\ (sink (handleGeolocationEvent E messageStr A event w) <> sink w ->
      exists messageData text resp locationData,
        json_Unmarshal E messageStr = Some messageData
        /\ messageData !! "message" = Some (JString text)
        /\ parseCellTowers (FindAllStringSubmatch text) <> []
        /\ http_Post E
             ("https://www.googleapis.com/geolocation/v1/geolocate?key="
              +:+ apiKey E)
             (json_Marshal_cellTowers E
                (parseCellTowers (FindAllStringSubmatch text)))
           = Some resp
        /\ StatusCode resp = 200%nat
        /\ Body resp = Some locationData).
Proof.
  split; [apply handleGeolocationEvent_shape|].
  unfold handleGeolocationEvent.
  destruct (json_Unmarshal E messageStr) as [d|] eqn:Hu; [|done].
  destruct (d !! "message") as [[| | |text| |]|] eqn:Hm; try done.
  destruct (length (FindAllStringSubmatch text) =? 0)%nat; [done|].
  destruct (length (parseCellTowers (FindAllStringSubmatch text)) =? 0)%nat
    eqn:Hl; [done|].
  destruct (http_Post E _ _) as [resp|] eqn:Hp; [|done].
  destruct (StatusCode resp =? 200)%nat eqn:Hs; [|done].
  destruct (Body resp) as [loc|] eqn:Hb; [|done].
  intros _. exists d, text, resp, loc. repeat (split; [done|]).
  split; [|split; [exact Hp|split; [by apply Nat.eqb_eq|done]]].
  intros Hnil. by rewrite Hnil in Hl.
Qed.

Lemma FindAllStringSubmatch_first_witness :
  FindAllStringSubmatch "towers [510,10,1A2B,3C4D] and [510,11,ff,0]"
  = ("510", "10", "1A2B", "3C4D") :: FindAllStringSubmatch " and [510,11,ff,0]".
Proof.
  apply (FindAllStringSubmatch_first "towers " "510" "10" "1A2B" "3C4D"
           " and [510,11,ff,0]"); first [reflexivity | discriminate].
Defined.


(** ** Runs *)

Section MoreRuns.

Variable E : Env.

Local Abbreviation F := (float64 E).

Lemma clear_flags_after (A m : string) (ts : Z) (k : clear_event)
    (w : world F) :
  decodeTimestamp E m = Some ts ->
  isSet w (flagKey A "ALARM_METER_DEVICE") = true ->
  isSet w (flagKey A "POWER_BACKUP_MODE") = true ->
  exists w1 prim,
    dispatch E (clear_name k) A m w = Done w1
    /\ sink w1 = sink w ++ emit E prim ++ emit E (powerPln E 0 A m ts)
    /\ power_pln_count 0 A (emit E prim) = 0%nat
    /\ power_pln_count 1 A (emit E prim) = 0%nat
    /\ isSet w1 (flagKey A "ALARM_METER_DEVICE") = true
    /\ isSet w1 (flagKey A "POWER_BACKUP_MODE") = true
    /\ isSet w1 (flagKey A "POWER_RESTORE_MODE") = false
    /\ isSet w1 (flagKey A "CLEAR_ALARM_METER_DEVICE") = false.
Proof.
  intros Hm Ha Hb.
  destruct k; cbn [clear_name] in *.
  - eexists _, _. split; [reflexivity|].
    rewrite (restore_step E A m ts w Hm), Ha, Hb. cbn [andb sink].
    split; [reflexivity|].
    split; [by apply count_primitive|]. split; [by apply count_primitive|].
    unfold isSet in *; cbn [eventState].
    destruct (eventState w !! flagKey A "CLEAR_ALARM_METER_DEVICE")
      as [[]|] eqn:Hc;
      repeat first
        [ rewrite lookup_delete_eq
        | rewrite lookup_insert_eq
        | rewrite lookup_delete_ne by key_ne
        | rewrite lookup_insert_ne by key_ne ];
      rewrite ?Ha, ?Hb, ?Hc; done.
  - eexists _, _. split; [reflexivity|].
    rewrite (clear_step E A m ts w Hm), Hb. cbn [sink].
    split; [reflexivity|].
    split; [by apply count_primitive|]. split; [by apply count_primitive|].
    unfold isSet in *; cbn [eventState].
    destruct (eventState w !! flagKey A "POWER_RESTORE_MODE")
      as [[]|] eqn:Hr;
      repeat first
        [ rewrite lookup_delete_eq
        | rewrite lookup_insert_eq
        | rewrite lookup_delete_ne by key_ne
        | rewrite lookup_insert_ne by key_ne ];
      rewrite ?Ha, ?Hb, ?Hr; done.
Qed.

(** X25.  While both conjunction flags of a sender are set, every clearing
    event of decodable payload emits a POWER_PLN record of value 0: a
    sequence of n such events emits n of them and no record of value 1,
    leaves both conjunction flags set and, when it is not empty, leaves no
    one-shot flag set. *)
Theorem clear_level_triggered (A : string) (l : list (clear_event * string))
    (w : world F) :
  Forall (fun km => is_Some (decodeTimestamp E km.2)) l ->
  isSet w (flagKey A "ALARM_METER_DEVICE") = true ->
  isSet w (flagKey A "POWER_BACKUP_MODE") = true ->
  exists w',
    run E (deliveries clear_name A l) w = Done w'
    /\ power_pln_count 0 A (emitted w w') = length l
    /\ power_pln_count 1 A (emitted w w') = 0%nat
    /\ isSet w' (flagKey A "ALARM_METER_DEVICE") = true
    /\ isSet w' (flagKey A "POWER_BACKUP_MODE") = true
    /\ (l <> [] ->
        isSet w' (flagKey A "POWER_RESTORE_MODE") = false
        /\ isSet w' (flagKey A "CLEAR_ALARM_METER_DEVICE") = false).
Proof.
  intros Hl Ha Hb.
  cut (exists w' new,
         run E (deliveries clear_name A l) w = Done w'
         /\ sink w' = sink w ++ new
         /\ power_pln_count 0 A new = length l
         /\ power_pln_count 1 A new = 0%nat
         /\ isSet w' (flagKey A "ALARM_METER_DEVICE") = true
         /\ isSet w' (flagKey A "POWER_BACKUP_MODE") = true
         /\ (l <> [] ->
             isSet w' (flagKey A "POWER_RESTORE_MODE") = false
             /\ isSet w' (flagKey A "CLEAR_ALARM_METER_DEVICE") = false)).
  { intros (w' & new & Hr & Hs & H). exists w'.
    by rewrite (emitted_app _ _ _ Hs). }
  revert w Ha Hb. induction Hl as [|[k m] l [ts Hm] _ IH]; intros w Ha Hb.
  - exists w, []. rewrite app_nil_r. by repeat split.
  - cbn in Hm.
    destruct (clear_flags_after A m ts k w Hm Ha Hb)
      as (w1 & prim & Hd & Hs & H0 & H1 & Ha1 & Hb1 & Hr1 & Hc1).
    destruct (IH w1 Ha1 Hb1) as (w' & new & Hr & Hs' & Hn0 & Hn1 & Ha' & Hb' & Ho).
    exists w', (emit E prim ++ emit E (powerPln E 0 A m ts) ++ new).
    cbn [deliveries map run fst snd]. rewrite Hd.
    split; [exact Hr|]. split; [by rewrite Hs', Hs, <- !app_assoc|].
    rewrite !power_pln_count_app, H0, H1, Hn0, Hn1, !count_powerPln.
    repeat (split; [done|]). intros _.
    destruct l as [|km l]; [|by apply Ho].
    cbn [deliveries map run] in Hr. by injection Hr as <-.
Qed.

End MoreRuns.

Lemma clear_level_triggered_witness :
  exists w',
    run Sample.env
      (deliveries clear_name "A"
         [(Restore, Sample.payload "POWER_RESTORE_MODE");
          (ClearAlarm, Sample.payload "CLEAR_ALARM_METER_DEVICE");
          (Restore, Sample.payload "POWER_RESTORE_MODE")])
      both_set = Done w'
    /\ power_pln_count 0 "A" (emitted both_set w') = 3%nat
    /\ power_pln_count 1 "A" (emitted both_set w') = 0%nat
    /\ isSet w' (flagKey "A" "ALARM_METER_DEVICE") = true
    /\ isSet w' (flagKey "A" "POWER_BACKUP_MODE") = true.
Proof.
  destruct (clear_level_triggered Sample.env "A"
              [(Restore, Sample.payload "POWER_RESTORE_MODE");
               (ClearAlarm, Sample.payload "CLEAR_ALARM_METER_DEVICE");
               (Restore, Sample.payload "POWER_RESTORE_MODE")] both_set)
    as (w' & Hr & H0 & H1 & Ha & Hb & _).
  - repeat constructor; vm_compute; eexists; reflexivity.
  - vm_compute. reflexivity.
  - vm_compute. reflexivity.
  - exists w'. repeat (split; [assumption|]). assumption.
Defined.
